(** * Movie-Api: the request/response contract of [index.js]

    A shallow embedding of the Express application of [src/index.js]:
    the routing table in registration order with its percent-decoded
    parameters, the authentication guard in front of the protected
    routes, the signup validation chains, the twelve route handlers and
    the error middleware, over a model of the document store the
    handlers talk to.

    JavaScript's [undefined] is [None]; a JS object used as a record of
    named fields ([req.params], [req.body], a stored document) is a
    [gmap string _]; a promise or a node-style callback settles to a
    [Result]. *)

From Stdlib Require Import Ascii String.
From stdpp Require Import gmap strings list fin_maps.

Local Open Scope string_scope.

(** ** Strings *)

(** [s.split(sep)] for a one-character separator. *)
Fixpoint split_on (sep : ascii) (s : string) : list string :=
  match s with
  | EmptyString => [EmptyString]
  | String c s' =>
      if Ascii.eqb c sep then EmptyString :: split_on sep s'
      else match split_on sep s' with
           | [] => [String c EmptyString]
           | w :: ws => String c w :: ws
           end
  end.

Definition is_digit (c : ascii) : bool :=
  let n := nat_of_ascii c in (48 <=? n)%nat && (n <=? 57)%nat.

Definition is_upper (c : ascii) : bool :=
  let n := nat_of_ascii c in (65 <=? n)%nat && (n <=? 90)%nat.

Definition is_lower (c : ascii) : bool :=
  let n := nat_of_ascii c in (97 <=? n)%nat && (n <=? 122)%nat.

Definition to_lower (c : ascii) : ascii :=
  if is_upper c then ascii_of_nat (nat_of_ascii c + 32) else c.

Fixpoint lowercase (s : string) : string :=
  match s with
  | EmptyString => EmptyString
  | String c s' => String (to_lower c) (lowercase s')
  end.

(** String concatenation with a possibly undefined left operand:
    [undefined + ' was deleted.'] is ["undefined was deleted."]. *)
Definition js_str (v : option string) : string :=
  match v with
  | Some s => s
  | None => "undefined"
  end.

(** [decodeURIComponent], on strings held as UTF-8 bytes.  A [%] must be
    followed by two hexadecimal digits; an escaped octet of 128 or more
    must open a well-formed UTF-8 sequence whose other octets are
    escaped too.  Anything else is a [URIError], here [None]. *)
Definition hex_digit (c : ascii) : option nat :=
  let n := nat_of_ascii c in
  if is_digit c then Some (n - 48)%nat
  else if (65 <=? n)%nat && (n <=? 70)%nat then Some (n - 55)%nat
  else if (97 <=? n)%nat && (n <=? 102)%nat then Some (n - 87)%nat
  else None.

(** The octets of a string, each marked as escaped or written plainly. *)
Fixpoint escapes (s : string) : option (list (bool * nat)) :=
  match s with
  | EmptyString => Some []
  | String c rest =>
      if Ascii.eqb c "%" then
        match rest with
        | String h (String l rest') =>
            match hex_digit h, hex_digit l with
            | Some a, Some b =>
                match escapes rest' with
                | Some os => Some ((true, 16 * a + b)%nat :: os)
                | None => None
                end
            | _, _ => None
            end
        | _ => None
        end
      else
        match escapes rest with
        | Some os => Some ((false, nat_of_ascii c) :: os)
        | None => None
        end
  end.

Definition continuation (b : nat) : bool := (128 <=? b)%nat && (b <=? 191)%nat.

(** The second octet of a three- or four-octet sequence, which rules out
    overlong forms, surrogates and code points above U+10FFFF. *)
Definition second_octet (lead b : nat) : bool :=
  if (lead =? 224)%nat then (160 <=? b)%nat && (b <=? 191)%nat
  else if (lead =? 237)%nat then (128 <=? b)%nat && (b <=? 159)%nat
  else if (lead =? 240)%nat then (144 <=? b)%nat && (b <=? 191)%nat
  else if (lead =? 244)%nat then (128 <=? b)%nat && (b <=? 143)%nat
  else continuation b.

Fixpoint octets (l : list (bool * nat)) : option (list nat) :=
  match l with
  | [] => Some []
  | (false, b) :: l1 =>
      match octets l1 with
      | Some os => Some (b :: os)
      | None => None
      end
  | (true, b) :: l1 =>
      if (b <? 128)%nat then
        match octets l1 with
        | Some os => Some (b :: os)
        | None => None
        end
      else
        match l1 with
        | (true, b2) :: l2 =>
            if (194 <=? b)%nat && (b <=? 223)%nat then
              if continuation b2 then
                match octets l2 with
                | Some os => Some (b :: b2 :: os)
                | None => None
                end
              else None
            else
              match l2 with
              | (true, b3) :: l3 =>
                  if (224 <=? b)%nat && (b <=? 239)%nat then
                    if second_octet b b2 && continuation b3 then
                      match octets l3 with
                      | Some os => Some (b :: b2 :: b3 :: os)
                      | None => None
                      end
                    else None
                  else
                    match l3 with
                    | (true, b4) :: l4 =>
                        if (240 <=? b)%nat && (b <=? 244)%nat
                           && second_octet b b2 && continuation b3 && continuation b4
                        then
                          match octets l4 with
                          | Some os => Some (b :: b2 :: b3 :: b4 :: os)
                          | None => None
                          end
                        else None
                    | _ => None
                    end
              | _ => None
              end
        | _ => None
        end
  end.

Definition decode (s : string) : option string :=
  match escapes s with
  | Some l =>
      match octets l with
      | Some os => Some (string_of_list_ascii (ascii_of_nat <$> os))
      | None => None
      end
  | None => None
  end.

(** The length validator's [isLength] compares: the UTF-16 length less
    the surrogate pairs and the variation selectors U+FE0E and U+FE0F,
    that is, on UTF-8 bytes, the code points other than these two
    selectors. *)
Definition selector (c : ascii) (rest : string) : bool :=
  match rest with
  | String c2 (String c3 _) =>
      (nat_of_ascii c =? 239)%nat && (nat_of_ascii c2 =? 184)%nat
      && ((nat_of_ascii c3 =? 142)%nat || (nat_of_ascii c3 =? 143)%nat)
  | _ => false
  end.

Fixpoint char_count (s : string) : nat :=
  match s with
  | EmptyString => 0
  | String c rest =>
      if continuation (nat_of_ascii c) then char_count rest
      else if selector c rest then char_count rest
      else S (char_count rest)
  end.

(** ** JSON values and documents *)

#[warnings="-register-all"]
Inductive Value : Type :=
  | VNull
  | VBool (b : bool)
  | VStr (s : string)
  | VArr (l : list Value)
  | VObj (m : gmap string Value).

Abbreviation Doc := (gmap string Value).

(** A field that is [undefined] is left out of an object literal that is
    serialised or stored. *)
Definition obj_of (fields : list (string * option Value)) : Doc :=
  foldr (fun kv acc =>
           match kv.2 with
           | Some v => <[kv.1 := v]> acc
           | None => acc
           end) ∅ fields.

(** A value on its way to the store: [undefined] is written as [null]. *)
Definition bson (v : option string) : Value :=
  match v with
  | Some s => VStr s
  | None => VNull
  end.

(** The value at a dotted path such as [Genre.Name]. *)
Fixpoint lookup_path (p : list string) (v : Value) : option Value :=
  match p with
  | [] => Some v
  | k :: p' =>
      match v with
      | VObj m =>
          match m !! k with
          | Some w => lookup_path p' w
          | None => None
          end
      | _ => None
      end
  end.

(** ** The document store

    The store is the external collaborator behind [Models.Movie] and
    [Models.User].  Its model keeps the documents of each collection in
    insertion order and answers the five calls [index.js] makes. *)

Inductive Coll := Movies | Users.

(** A query filter [{ key : value }]; the value is whatever expression
    the handler wrote there, possibly [undefined]. *)
Record Filter := { f_key : string; f_val : option string }.

Inductive Update :=
  | USet (fields : list (string * option string))
  | UPush (field : string) (v : option string)
  | UPull (field : string) (v : option string).

Inductive Call :=
  | Find (c : Coll)
  | FindOne (c : Coll) (f : Filter)
  | Create (c : Coll) (d : Doc)
  | FindOneAndUpdate (c : Coll) (f : Filter) (u : Update)
  | FindOneAndRemove (c : Coll) (f : Filter).

(** [fault] is the store's side of the story while one request is
    served: the error, if any, with which it rejects a call (connection
    lost, time-out, ...).  It is the store's, not the application's: by
    the next request it may be another one ([with_fault]). *)
Record Store := {
  movies : list Doc;
  users : list Doc;
  fault : Call -> option string
}.

Definition docs (c : Coll) (db : Store) : list Doc :=
  match c with
  | Movies => movies db
  | Users => users db
  end.

Definition set_docs (c : Coll) (l : list Doc) (db : Store) : Store :=
  match c with
  | Movies => {| movies := l; users := users db; fault := fault db |}
  | Users => {| movies := movies db; users := l; fault := fault db |}
  end.

(** What the application threads through a request: the store and the
    journal of the calls made to it so far. *)
Record Sys := { db : Store; journal : list Call }.

Inductive Result (A : Type) :=
  | Resolved (a : A)
  | Rejected (err : string).
Arguments Resolved {A} a.
Arguments Rejected {A} err.

(** Equality match of a filter against a document.  A defined value
    matches a field holding that string; an undefined value reaches the
    store as [null], which matches a field that is [null] or absent. *)
Definition matches (f : Filter) (d : Doc) : bool :=
  match lookup_path (split_on "." (f_key f)) (VObj d), f_val f with
  | Some (VStr s), Some v => bool_decide (s = v)
  | Some VNull, None => true
  | None, None => true
  | _, _ => false
  end.

Definition is_str (s : string) (v : Value) : bool :=
  match v with
  | VStr t => bool_decide (t = s)
  | _ => false
  end.

Definition is_null (v : Value) : bool :=
  match v with
  | VNull => true
  | _ => false
  end.

(** [$push]: append at the end of the array, creating it when absent. *)
Definition push (v : option string) (l : list Value) : list Value :=
  l ++ [bson v].

(** [$pull]: drop every element equal to the operand. *)
Definition pull (v : option string) (l : list Value) : list Value :=
  match v with
  | Some s => filter (fun x => is_str s x = false) l
  | None => filter (fun x => is_null x = false) l
  end.

Definition apply_update (u : Update) (d : Doc) : Result Doc :=
  match u with
  | USet fields =>
      Resolved (foldl (fun acc kv => <[kv.1 := bson kv.2]> acc) d fields)
  | UPush k v =>
      match d !! k with
      | None => Resolved (<[k := VArr (push v [])]> d)
      | Some (VArr l) => Resolved (<[k := VArr (push v l)]> d)
      | Some _ => Rejected "MongoError: the field must be an array"
      end
  | UPull k v =>
      match d !! k with
      | None => Resolved d
      | Some (VArr l) => Resolved (<[k := VArr (pull v l)]> d)
      | Some _ => Rejected "MongoError: cannot apply $pull to a non-array value"
      end
  end.

(** The first document the filter matches, with its position. *)
Fixpoint first_match (f : Filter) (l : list Doc) : option (nat * Doc) :=
  match l with
  | [] => None
  | d :: l' =>
      if matches f d then Some (0, d)
      else match first_match f l' with
           | Some (i, d') => Some (S i, d')
           | None => None
           end
  end.

(** The system when the store has come to react by [f]. *)
Definition with_fault (f : Call -> option string) (s : Sys) : Sys :=
  {| db := {| movies := movies (db s); users := users (db s); fault := f |};
     journal := journal s |}.

Definition record (c : Call) (s : Sys) : Sys :=
  {| db := db s; journal := journal s ++ [c] |}.

Definition commit (c : Coll) (l : list Doc) (s : Sys) : Sys :=
  {| db := set_docs c l (db s); journal := journal s |}.

(** [Model.find()] *)
Definition find (c : Coll) (s : Sys) : Result (list Doc) * Sys :=
  let s := record (Find c) s in
  match fault (db s) (Find c) with
  | Some err => (Rejected err, s)
  | None => (Resolved (docs c (db s)), s)
  end.

(** [Model.findOne(filter)] *)
Definition findOne (c : Coll) (f : Filter) (s : Sys)
  : Result (option Doc) * Sys :=
  let s := record (FindOne c f) s in
  match fault (db s) (FindOne c f) with
  | Some err => (Rejected err, s)
  | None => (Resolved (snd <$> first_match f (docs c (db s))), s)
  end.

(** [Model.create(fields)] *)
Definition create (c : Coll) (d : Doc) (s : Sys) : Result Doc * Sys :=
  let s := record (Create c d) s in
  match fault (db s) (Create c d) with
  | Some err => (Rejected err, s)
  | None => (Resolved d, commit c (docs c (db s) ++ [d]) s)
  end.

(** [Model.findOneAndUpdate(filter, update, { new: true })]: the
    document handed back is the updated one, or [null] when the filter
    matches nothing. *)
Definition findOneAndUpdate (c : Coll) (f : Filter) (u : Update) (s : Sys)
  : Result (option Doc) * Sys :=
  let s := record (FindOneAndUpdate c f u) s in
  match fault (db s) (FindOneAndUpdate c f u) with
  | Some err => (Rejected err, s)
  | None =>
      match first_match f (docs c (db s)) with
      | None => (Resolved None, s)
      | Some (i, d) =>
          match apply_update u d with
          | Rejected err => (Rejected err, s)
          | Resolved d' =>
              (Resolved (Some d'), commit c (<[i := d']> (docs c (db s))) s)
          end
      end
  end.

(** [Model.findOneAndRemove(filter)] *)
Definition findOneAndRemove (c : Coll) (f : Filter) (s : Sys)
  : Result (option Doc) * Sys :=
  let s := record (FindOneAndRemove c f) s in
  match fault (db s) (FindOneAndRemove c f) with
  | Some err => (Rejected err, s)
  | None =>
      match first_match f (docs c (db s)) with
      | None => (Resolved None, s)
      | Some (i, d) => (Resolved (Some d), commit c (delete i (docs c (db s))) s)
      end
  end.

(** Modelled from the spec: [models.js], which declares the schemas, is
    not among the sources.  Section 3 gives a User the fields Username,
    Password, Email, Birthday and FavoriteMovies, the last an ordered
    list; a new user starts with an empty one.  The identifier the
    driver assigns is left out: no handler of [index.js] reads it. *)
Definition new_user (fields : Doc) : Doc :=
  match fields !! "FavoriteMovies" with
  | Some _ => fields
  | None => <["FavoriteMovies" := VArr []]> fields
  end.

(** ** HTTP *)

Inductive Method := GET | POST | PUT | DELETE.

#[global] Instance Method_eq_dec : EqDecision Method.
Proof. solve_decision. Defined.

Record Request := {
  method : Method;
  path : string;
  (* the token of an [Authorization: Bearer <token>] header *)
  authorization : option string;
  params : gmap string string;
  body : gmap string string
}.

Inductive Body :=
  | Text (s : string)
  | Json (v : Value)
  | File (name : string).

Record Response := { status : nat; payload : Body }.

(** [res.status(code).send(text)] *)
Definition send (code : nat) (text : string) : Response :=
  {| status := code; payload := Text text |}.

(** [res.status(code).json(value)]; a bare [res.json(value)] answers 200. *)
Definition json (code : nat) (v : Value) : Response :=
  {| status := code; payload := Json v |}.

Definition json_doc (d : option Doc) : Value :=
  match d with
  | Some d => VObj d
  | None => VNull
  end.

Definition Handler : Type := Request -> Sys -> Response * Sys.

(** ** Validation (express-validator) *)

Inductive Validator :=
  | isLength (min : nat)
  | isAlphanumeric
  | notEmpty
  | isEmailV.

(** [check(field, message).<validator>()] *)
Record Chain := { c_field : string; c_msg : string; c_validator : Validator }.

Definition check (field message : string) (v : Validator) : Chain :=
  {| c_field := field; c_msg := message; c_validator := v |}.

Record ValidationError := {
  e_value : option string;
  e_msg : string;
  e_param : string;
  e_location : string
}.

Definition alphanumeric (s : string) : bool :=
  match s with
  | EmptyString => false
  | _ => forallb (fun c => is_digit c || is_upper c || is_lower c)
                 (list_ascii_of_string s)
  end.

(** [errors.isEmpty()] *)
Definition isEmpty {A : Type} (l : list A) : bool :=
  match l with
  | [] => true
  | _ :: _ => false
  end.

Definition error_json (e : ValidationError) : Value :=
  VObj (obj_of [("value", VStr <$> e_value e);
                ("msg", Some (VStr (e_msg e)));
                ("param", Some (VStr (e_param e)));
                ("location", Some (VStr (e_location e)))]).

(** ** Sample collaborators and data

    Stand-ins for the three collaborators, and a few stores and
    requests, on which the contract is exercised below. *)

Module Sample.

Definition hashPassword (s : string) : string := "$2b$10$" ++ s.

Definition isEmail (s : string) : bool :=
  match split_on "@" s with
  | [name; domain] =>
      negb (bool_decide (name = "")) && negb (bool_decide (domain = ""))
  | _ => false
  end.

Definition verifyToken (tok : string) : bool := bool_decide (tok = "valid").

(** A store that rejects no call. *)
Definition store (movies users : list Doc) : Store :=
  {| movies := movies; users := users; fault := fun _ => None |}.

Definition fresh (movies users : list Doc) : Sys :=
  {| db := store movies users; journal := [] |}.

Definition request (m : Method) (p : string) (tok : option string)
    (fields : list (string * string)) : Request :=
  {| method := m; path := p; authorization := tok;
     params := ∅; body := list_to_map fields |}.

Definition doc (fields : list (string * Value)) : Doc := list_to_map fields.

Definition signup : Request :=
  request POST "/users" None
    [("Username", "alice1"); ("Password", "secret");
     ("Email", "a@example.com"); ("Birthday", "1999-01-01")].

Definition alice : Doc :=
  doc [("Username", VStr "alice1"); ("Password", VStr "$2b$10$secret");
       ("Email", VStr "a@example.com"); ("Birthday", VStr "1999-01-01");
       ("FavoriteMovies", VArr [])].

(** Two documents a schemaless store may hold: they carry the fields
    [id] and [user_name] that the handlers filter on. *)
Definition bob : Doc :=
  doc [("id", VStr "7"); ("user_name", VStr "bob22");
       ("Username", VStr "bob22"); ("Password", VStr "$2b$10$hunter2");
       ("Email", VStr "bob@example.com");
       ("FavoriteMovies", VArr [VStr "m0"])].

Definition inception : Doc :=
  doc [("Title", VStr "Inception");
       ("Genre", VObj (doc [("Name", VStr "Thriller")]));
       ("Director", VObj (doc [("Name", VStr "Christopher Nolan")]))].

(** A store that rejects every call. *)
Definition broken (movies users : list Doc) : Sys :=
  {| db := {| movies := movies; users := users;
              fault := fun _ => Some "MongoNetworkError" |};
     journal := [] |}.

(** A store that answers searches and rejects every other call. *)
Definition searches_only (c : Call) : option string :=
  match c with
  | FindOne _ _ => None
  | _ => Some "MongoNetworkError"
  end.

(** A guard that accepts every non-empty token. *)
Definition verifyAny (tok : string) : bool := negb (bool_decide (tok = "")).

End Sample.

Section App.

(** The collaborators [index.js] calls and does not define:
    [Users.hashPassword] of [models.js], validator's [isEmail], and
    the verification of a bearer token by the JWT strategy. *)
Variable hashPassword : string -> string.
Variable isEmail : string -> bool.
Variable verifyToken : string -> bool.

(** A validator sees the field as a string; an absent field is [""]. *)
Definition passes (v : Validator) (value : option string) : bool :=
  let s := default "" value in
  match v with
  | isLength min => (min <=? char_count s)%nat
  | isAlphanumeric => alphanumeric s
  | notEmpty => negb (bool_decide (s = ""))
  | isEmailV => isEmail s
  end.

Definition run_chain (req : Request) (c : Chain) : list ValidationError :=
  let value := body req !! c_field c in
  if passes (c_validator c) value then []
  else [{| e_value := value; e_msg := c_msg c;
           e_param := c_field c; e_location := "body" |}].

(** [validationResult(req).array()] for the given chains. *)
Definition validationResult (chains : list Chain) (req : Request)
  : list ValidationError :=
  flat_map (run_chain req) chains.

Definition signup_checks : list Chain :=
  [ check "Username" "Username is required" (isLength 5);
    check "Username"
          "Username contains non alphanumeric characters - not allowed."
          isAlphanumeric;
    check "Password" "Password is required" notEmpty;
    check "Email" "Email does not appear to be valid" isEmailV ].

(** The violation reported for a field of the request body. *)
Definition violation (req : Request) (field message : string) : ValidationError :=
  {| e_value := body req !! field; e_msg := message;
     e_param := field; e_location := "body" |}.

(** The signup rules as section 4.2 words them, each checked on its own
    and reported in the order of the list: Username at least five
    characters (counted as [char_count] does), Username alphanumeric, Password not empty, Email of a
    valid shape.  An absent field counts as the empty string. *)
Definition signup_violations (req : Request) : list ValidationError :=
  let username := default "" (body req !! "Username") in
  let password := default "" (body req !! "Password") in
  let email := default "" (body req !! "Email") in
  (if (char_count username <? 5)%nat
   then [violation req "Username" "Username is required"] else []) ++
  (if alphanumeric username then []
   else [violation req "Username"
           "Username contains non alphanumeric characters - not allowed."]) ++
  (if bool_decide (password = "")
   then [violation req "Password" "Password is required"] else []) ++
  (if isEmail email then []
   else [violation req "Email" "Email does not appear to be valid"]).

(** ** Route handlers *)

(** [GET /documentation] *)
Definition documentation : Handler := fun req s =>
  ({| status := 200; payload := File "public/documentation.html" |}, s).

(** [GET /] *)
Definition welcome : Handler := fun req s =>
  (send 200 "Welcome to my movie club!", s).

(** [GET /movies] *)
Definition GETAllMovies : Handler := fun req s =>
  match find Movies s with
  | (Resolved movie, s) => (json 201 (VArr (VObj <$> movie)), s)
  | (Rejected err, s) => (send 400 ("Error: " ++ err), s)
  end.

(** [GET /movies/:title] *)
Definition GETOneMovie : Handler := fun req s =>
  match findOne Movies {| f_key := "Title"; f_val := params req !! "title" |} s with
  | (Resolved movie, s) => (json 200 (json_doc movie), s)
  | (Rejected err, s) => (send 500 ("Error: " ++ err), s)
  end.

(** [GET /movies/genre/:name] *)
Definition GETOneGenre : Handler := fun req s =>
  match findOne Movies {| f_key := "Genre.Name"; f_val := params req !! "name" |} s with
  | (Resolved genre, s) => (json 200 (json_doc genre), s)
  | (Rejected err, s) => (send 500 ("Error: " ++ err), s)
  end.

(** [GET /movies/director/:name] *)
Definition GETOneDirector : Handler := fun req s =>
  match findOne Movies {| f_key := "Director.Name"; f_val := params req !! "name" |} s with
  | (Resolved director, s) => (json 200 (json_doc director), s)
  | (Rejected err, s) => (send 500 ("Error: " ++ err), s)
  end.

(** [GET /users] *)
Definition GETAllUsers : Handler := fun req s =>
  match find Users s with
  | (Resolved users, s) => (json 201 (VArr (VObj <$> users)), s)
  | (Rejected err, s) => (send 400 ("Error: " ++ err), s)
  end.

(** [POST /users] *)
Definition POSTAddUser : Handler := fun req s =>
  let errors := validationResult signup_checks req in
  if negb (isEmpty errors) then
    (json 422 (VObj (obj_of [("errors", Some (VArr (error_json <$> errors)))])), s)
  else
    let hashedPassword := hashPassword <$> body req !! "Password" in
    match findOne Users {| f_key := "Username"; f_val := body req !! "Username" |} s with
    | (Resolved (Some user), s) =>
        (send 400 (js_str (body req !! "Username") ++ "already exists"), s)
    | (Resolved None, s) =>
        match create Users
                (new_user (obj_of [("Username", VStr <$> body req !! "Username");
                                   ("Password", VStr <$> hashedPassword);
                                   ("Email", VStr <$> body req !! "Email");
                                   ("Birthday", VStr <$> body req !! "Birthday")])) s with
        | (Resolved user, s) => (json 201 (VObj user), s)
        | (Rejected error, s) => (send 500 ("Error: " ++ error), s)
        end
    | (Rejected error, s) => (send 500 ("Error: " ++ error), s)
    end.

(** [PUT /users/:ID] *)
Definition PUTUpdateUser : Handler := fun req s =>
  match findOneAndUpdate Users
          {| f_key := "id"; f_val := params req !! "id" |}
          (USet [("Password", body req !! "Password");
                 ("Email", body req !! "Email");
                 ("Birthday", body req !! "Birthday")]) s with
  | (Rejected err, s) => (send 500 ("Error: " ++ err), s)
  | (Resolved updatedUser, s) => (json 200 (json_doc updatedUser), s)
  end.

(** [POST /users/:ID/:movieID] *)
Definition POSTAddFavoriteMovie : Handler := fun req s =>
  match findOneAndUpdate Users
          {| f_key := "user_name"; f_val := params req !! "ID" |}
          (UPush "FavoriteMovies" (params req !! "movieID")) s with
  | (Rejected err, s) => (send 500 ("Error: " ++ err), s)
  | (Resolved updatedUser, s) => (json 200 (json_doc updatedUser), s)
  end.

(** [DELETE /users/:id/unregister] *)
Definition DELETEUserAccount : Handler := fun req s =>
  match findOneAndRemove Users {| f_key := "id"; f_val := params req !! "id" |} s with
  | (Resolved None, s) =>
      (send 400 (js_str (params req !! "user_name") ++ " was not found"), s)
  | (Resolved (Some user), s) =>
      (send 200 (js_str (params req !! "user_name") ++ " was deleted."), s)
  | (Rejected err, s) => (send 500 ("Error: " ++ err), s)
  end.

(** [DELETE /users/:ID/:deleteFavorite] *)
Definition DELETERemoveFavoriteMovie : Handler := fun req s =>
  match findOneAndUpdate Users
          {| f_key := "user_name"; f_val := params req !! "id" |}
          (UPull "FavoriteMovies" (params req !! "MovieID")) s with
  | (Rejected err, s) => (send 500 ("Error: " ++ err), s)
  | (Resolved updatedUser, s) => (json 200 (json_doc updatedUser), s)
  end.

(** ** Routing *)

Inductive Seg :=
  | Lit (s : string)
  | Par (name : string).

Definition parse_seg (s : string) : Seg :=
  match s with
  | String ":" name => Par name
  | _ => Lit s
  end.

(** The segments of a path: it starts with a slash and one trailing
    slash is ignored. *)
Definition segments (p : string) : option (list string) :=
  match split_on "/" p with
  | "" :: rest =>
      match reverse rest with
      | "" :: r => Some (reverse r)
      | _ => Some rest
      end
  | _ => None
  end.

(** Whether a pattern fits a path, as the pattern's regular expression
    decides it: a literal segment compares without regard to case, a
    parameter takes one non-empty segment. *)
Fixpoint fits (pat : list Seg) (segs : list string) : bool :=
  match pat, segs with
  | [], [] => true
  | Lit l :: pat', s :: segs' =>
      bool_decide (lowercase l = lowercase s) && fits pat' segs'
  | Par name :: pat', s :: segs' =>
      negb (bool_decide (s = "")) && fits pat' segs'
  | _, _ => false
  end.

(** The parameters of a path that fits: each is the decoded segment,
    bound under the name the pattern gives it, exactly as spelled there.
    A segment that does not decode fails the whole binding. *)
Fixpoint bind_params (pat : list Seg) (segs : list string)
    (ps : gmap string string) : option (gmap string string) :=
  match pat, segs with
  | Par name :: pat', s :: segs' =>
      match decode s with
      | Some v => bind_params pat' segs' (<[name := v]> ps)
      | None => None
      end
  | _ :: pat', _ :: segs' => bind_params pat' segs' ps
  | _, _ => Some ps
  end.

Inductive Match :=
  | Miss
  | Malformed
  | Hit (ps : gmap string string).

Definition match_path (pattern p : string) : Match :=
  match segments pattern, segments p with
  | Some pat, Some segs =>
      if fits (parse_seg <$> pat) segs then
        match bind_params (parse_seg <$> pat) segs ∅ with
        | Some ps => Hit ps
        | None => Malformed
        end
      else Miss
  | _, _ => Miss
  end.

(** One [app.METHOD(pattern, [passport.authenticate('jwt', ...),] handler)]. *)
Record Route := {
  r_method : Method;
  r_pattern : string;
  r_auth : bool;
  r_handler : Handler
}.

Definition route (m : Method) (pattern : string) (auth : bool) (h : Handler)
  : Route :=
  {| r_method := m; r_pattern := pattern; r_auth := auth; r_handler := h |}.

Inductive Routing :=
  | NotFound
  | ParamError
  | To (r : Route) (ps : gmap string string).

(** The router's pass over the routes in registration order.  A pattern
    is tried on the path before the method is looked at; the first
    route whose pattern fits and whose method is the request's serves
    it.  When a fitting pattern's parameter does not decode, the router
    holds on to that error and no later route is taken. *)
Fixpoint routing (table : list Route) (req : Request) : Routing :=
  match table with
  | [] => NotFound
  | r :: table' =>
      match match_path (r_pattern r) (path req) with
      | Miss => routing table' req
      | Malformed => ParamError
      | Hit ps =>
          if bool_decide (r_method r = method req) then To r ps
          else routing table' req
      end
  end.

(** The route that serves the request, with the parameters it is handed,
    when routing arrives at one. *)
Definition dispatch (table : list Route) (req : Request)
  : option (Route * gmap string string) :=
  match routing table req with
  | To r ps => Some (r, ps)
  | _ => None
  end.

Definition with_params (ps : gmap string string) (req : Request) : Request :=
  {| method := method req; path := path req;
     authorization := authorization req; params := ps; body := body req |}.

Definition with_token (tok : option string) (req : Request) : Request :=
  {| method := method req; path := path req;
     authorization := tok; params := params req; body := body req |}.

(** Modelled from the spec: [passport.js], which configures the JWT
    strategy, is not among the sources.  Section 4.1: the guard verifies
    the bearer token; on success the request continues to the handler,
    on failure it is answered 401 before any handler runs. *)
Definition authenticated (req : Request) : bool :=
  match authorization req with
  | Some tok => verifyToken tok
  | None => false
  end.

Definition unauthorized : Response := send 401 "Unauthorized".

Definition serve (r : Route) : Handler := fun req s =>
  if r_auth r && negb (authenticated req) then (unauthorized, s)
  else r_handler r req s.

(** The routes of [index.js], in the order they are registered. *)
Definition routes : list Route :=
  [ route GET "/documentation" false documentation;
    route GET "/" false welcome;
    route GET "/movies" true GETAllMovies;
    route GET "/movies/:title" true GETOneMovie;
    route GET "/movies/genre/:name" true GETOneGenre;
    route GET "/movies/director/:name" true GETOneDirector;
    route GET "/users" true GETAllUsers;
    route POST "/users" false POSTAddUser;
    route PUT "/users/:ID" true PUTUpdateUser;
    route POST "/users/:ID/:movieID" true POSTAddFavoriteMovie;
    route DELETE "/users/:id/unregister" true DELETEUserAccount;
    route DELETE "/users/:ID/:deleteFavorite" true DELETERemoveFavoriteMovie ].

Definition method_name (m : Method) : string :=
  match m with
  | GET => "GET"
  | POST => "POST"
  | PUT => "PUT"
  | DELETE => "DELETE"
  end.

(** The error-handling middleware registered last:
    [app.use((err, req, res, next) => ...)]. *)
Definition errorHandler : Handler := fun req s =>
  (send 500 "Something broke!", s).

(** The application.  A routed request goes through the guard to its
    handler; a parameter that does not decode goes to the error
    middleware, before any guard or handler; a request no route fits
    falls through to the framework's 404. *)
Definition app : Handler := fun req s =>
  match routing routes req with
  | To r ps => serve r (with_params ps req) s
  | ParamError => errorHandler req s
  | NotFound => (send 404 ("Cannot " ++ method_name (method req) ++ " " ++ path req), s)
  end.

(** What a request may do to the system: the movies and the store's
    fault behaviour stay, and the journal grows by the calls made. *)
Definition grows_by (n : nat) (s s' : Sys) : Prop :=
  movies (db s') = movies (db s) /\
  fault (db s') = fault (db s) /\
  exists calls, journal s' = (journal s ++ calls)%list /\ (length calls <= n)%nat.

(** The parameter names a route pattern spells. *)
Definition seg_names (pat : list Seg) : list string :=
  omap (fun g => match g with Par name => Some name | Lit _ => None end) pat.

Definition param_names (pattern : string) : list string :=
  match segments pattern with
  | Some pat => seg_names (parse_seg <$> pat)
  | None => []
  end.

(** The Username a stored document carries, if it carries one. *)
Definition username (d : Doc) : option string :=
  match d !! "Username" with
  | Some (VStr u) => Some u
  | _ => None
  end.

Definition usernames (l : list Doc) : list string := omap username l.

(** No two stored users share a Username. *)
Definition unique_usernames (s : Sys) : Prop := NoDup (usernames (users (db s))).

(** The fields an update writes. *)
Definition update_fields (u : Update) : list string :=
  match u with
  | USet fields => fields.*1
  | UPush k _ => [k]
  | UPull k _ => [k]
  end.

(** A stored user as the API creates it: without the fields [id] and
    [user_name]. *)
Definition api_shaped (s : Sys) : Prop :=
  forall d, d ∈ users (db s) -> d !! "id" = None /\ d !! "user_name" = None.

(** The ways one request can change the users collection: not at all,
    by one user appended, by one document rewritten in place, or by one
    document removed. *)
Definition users_step (l l' : list Doc) : Prop :=
  l' = l \/
  (exists user u,
     l' = (l ++ [user])%list /\
     user !! "Username" = Some (VStr u) /\
     user !! "id" = None /\ user !! "user_name" = None /\
     forall d, d ∈ l -> d !! "Username" <> Some (VStr u)) \/
  (exists i d d',
     l !! i = Some d /\ l' = <[i := d']> l /\
     forall k, k ∉ ["Password"; "Email"; "Birthday"; "FavoriteMovies"] ->
               d' !! k = d !! k) \/
  (exists i, l' = delete i l).

(** ** Auxiliary facts *)

Lemma first_match_None (f : Filter) (l : list Doc) :
  first_match f l = None <-> forall d, d ∈ l -> matches f d = false.
Proof.
  induction l as [|d l IH]; simpl.
  - split; [intros _ d Hd; inversion Hd | done].
  - destruct (matches f d) eqn:Hm.
    + split; [done|]. intros H. specialize (H d (list_elem_of_here _ _)). congruence.
    + destruct (first_match f l) as [[i d']|] eqn:Hf.
      * split; [done|]. intros H.
        assert (Some (i, d') = None) as Habs; [|done].
        apply IH. intros x Hx. apply H. by apply list_elem_of_further.
      * split; [|done]. intros _ x Hx.
        apply elem_of_cons in Hx as [->|Hx]; [done|].
        by apply IH.
Qed.

Lemma first_match_Some (f : Filter) (l : list Doc) (i : nat) (d : Doc) :
  first_match f l = Some (i, d) <->
  l !! i = Some d /\ matches f d = true /\
  forall j d', (j < i)%nat -> l !! j = Some d' -> matches f d' = false.
Proof.
  revert i. induction l as [|x l IH]; intros i; simpl.
  - split; [done|]. by intros [? _].
  - destruct (matches f x) eqn:Hm.
    + split.
      * intros [= <- <-]. repeat split; [done|]. intros j d' Hj. lia.
      * intros (Hl & Hd & Hlt). destruct i as [|i]; simpl in Hl.
        -- by inversion Hl.
        -- assert (matches f x = false) by (apply (Hlt 0%nat); [lia|done]).
           congruence.
    + destruct i as [|i].
      * split.
        -- destruct (first_match f l) as [[k d']|]; done.
        -- intros (Hl & Hd & _). simpl in Hl. inversion Hl; subst. congruence.
      * specialize (IH i). split.
        -- intros H. destruct (first_match f l) as [[k d']|]; [|done].
           injection H as -> ->. destruct (proj1 IH eq_refl) as (Hl & Hd & Hlt).
           repeat split; [done..|]. intros [|j] y Hj Hy; simpl in Hy.
           ++ by inversion Hy; subst.
           ++ apply (Hlt j); [lia|done].
        -- intros (Hl & Hd & Hlt). simpl in Hl.
           assert (first_match f l = Some (i, d)) as ->; [|done].
           apply IH. repeat split; [done..|]. intros j y Hj Hy.
           apply (Hlt (S j)); [lia|done].
Qed.

(** A filter on a top-level field compares that field. *)
Lemma matches_top (k : string) (v : option string) (d : Doc) :
  split_on "." k = [k] ->
  matches {| f_key := k; f_val := v |} d =
  match d !! k, v with
  | Some (VStr s), Some v => bool_decide (s = v)
  | Some VNull, None => true
  | None, None => true
  | _, _ => false
  end.
Proof.
  intros Hk. unfold matches. simpl f_key. simpl f_val. rewrite Hk. simpl.
  by destruct (d !! k).
Qed.

Lemma dispatch_Some (table : list Route) (req : Request) r ps :
  dispatch table req = Some (r, ps) <-> routing table req = To r ps.
Proof.
  unfold dispatch. destruct (routing table req); split; congruence.
Qed.

Lemma routing_In (table : list Route) (req : Request) r ps :
  routing table req = To r ps -> r ∈ table.
Proof.
  induction table as [|x table IH]; simpl; [done|].
  destruct (match_path (r_pattern x) (path req)); [|done|].
  - intros H. apply list_elem_of_further. auto.
  - case_bool_decide.
    + intros [= <- <-]. apply list_elem_of_here.
    + intros Hr. apply list_elem_of_further. auto.
Qed.

Lemma dispatch_In (table : list Route) (req : Request) r ps :
  dispatch table req = Some (r, ps) -> r ∈ table.
Proof. rewrite dispatch_Some. apply routing_In. Qed.

Lemma routing_with_token (table : list Route) (tok : option string) (req : Request) :
  routing table (with_token tok req) = routing table req.
Proof. induction table as [|x table IH]; simpl; [done|]. by rewrite IH. Qed.

Lemma dispatch_with_token (table : list Route) (tok : option string) (req : Request) :
  dispatch table (with_token tok req) = dispatch table req.
Proof. unfold dispatch. by rewrite routing_with_token. Qed.

Lemma serve_open (r : Route) (req : Request) (s : Sys) :
  r_auth r = false -> serve r req s = r_handler r req s.
Proof. intros H. unfold serve. by rewrite H. Qed.

Lemma serve_pass (r : Route) (req : Request) (s : Sys) :
  authenticated req = true -> serve r req s = r_handler r req s.
Proof. intros H. unfold serve. rewrite H. by rewrite andb_false_r. Qed.

Lemma serve_reject (r : Route) (req : Request) (s : Sys) :
  r_auth r = true -> authenticated req = false -> serve r req s = (unauthorized, s).
Proof. intros H1 H2. unfold serve. by rewrite H1, H2. Qed.

Lemma authenticated_with_params ps req :
  authenticated (with_params ps req) = authenticated req.
Proof. done. Qed.

Lemma app_routed (req : Request) (s : Sys) r ps :
  dispatch routes req = Some (r, ps) ->
  authenticated req = true ->
  app req s = r_handler r (with_params ps req) s.
Proof.
  intros Hd Ha. unfold app. apply dispatch_Some in Hd. rewrite Hd.
  by apply serve_pass.
Qed.

Lemma app_served (req : Request) (s : Sys) r ps :
  dispatch routes req = Some (r, ps) ->
  app req s = serve r (with_params ps req) s.
Proof. intros Hd. unfold app. apply dispatch_Some in Hd. by rewrite Hd. Qed.

Lemma findOne_no_fault c f s :
  fault (db s) (FindOne c f) = None ->
  findOne c f s =
  (Resolved (snd <$> first_match f (docs c (db s))), record (FindOne c f) s).
Proof. intros H. unfold findOne. simpl. by rewrite H. Qed.

Lemma findOneAndUpdate_no_match c f u s :
  fault (db s) (FindOneAndUpdate c f u) = None ->
  (forall d, d ∈ docs c (db s) -> matches f d = false) ->
  findOneAndUpdate c f u s = (Resolved None, record (FindOneAndUpdate c f u) s).
Proof.
  intros Hf Hm. unfold findOneAndUpdate. simpl. rewrite Hf.
  apply first_match_None in Hm. by rewrite Hm.
Qed.

(** Settles [dispatch routes req = _] once the method and the path of
    [req] are known. *)
Ltac routed req :=
  destruct req; cbn [method path] in *; subst; reflexivity.

Lemma find_result c s :
  find c s =
  (match fault (db s) (Find c) with
   | Some err => Rejected err
   | None => Resolved (docs c (db s))
   end, record (Find c) s).
Proof. unfold find. simpl. by destruct (fault (db s) (Find c)). Qed.

(** ** The contract *)

(** C9: [GET /movies] and [GET /users], with a valid token, answer 201
    with the JSON array of every document of the collection, and 400
    with ["Error: "] followed by the store's error when the store
    rejects the query. *)
Theorem list_endpoints_answer_201 (req : Request) (s : Sys) :
  method req = GET ->
  authenticated req = true ->
  (path req = "/movies" ->
   app req s =
   (match fault (db s) (Find Movies) with
    | None => json 201 (VArr (VObj <$> movies (db s)))
    | Some err => send 400 ("Error: " ++ err)
    end, record (Find Movies) s)) /\
  (path req = "/users" ->
   app req s =
   (match fault (db s) (Find Users) with
    | None => json 201 (VArr (VObj <$> users (db s)))
    | Some err => send 400 ("Error: " ++ err)
    end, record (Find Users) s)).
Proof.
  intros Hm Ha. split; intros Hp.
  - rewrite (app_routed req s (route GET "/movies" true GETAllMovies) ∅); [|by routed req|done].
    simpl. unfold GETAllMovies. rewrite find_result.
    by destruct (fault (db s) (Find Movies)).
  - rewrite (app_routed req s (route GET "/users" true GETAllUsers) ∅); [|by routed req|done].
    simpl. unfold GETAllUsers. rewrite find_result.
    by destruct (fault (db s) (Find Users)).
Qed.

(** C7: a lookup by title, genre or director answers 200 in both cases:
    with [null] when no movie matches the filter, and with the first
    matching movie's document when one does.  The filter holds the
    decoded parameter; a path whose parameter does not decode is not
    routed to the lookup at all. *)
Theorem lookup_answers_200 (req : Request) (s : Sys) (r : Route)
    (ps : gmap string string) (f : Filter) :
  dispatch routes req = Some (r, ps) ->
  authenticated req = true ->
  (r, f) ∈
    [ (route GET "/movies/:title" true GETOneMovie,
       {| f_key := "Title"; f_val := ps !! "title" |});
      (route GET "/movies/genre/:name" true GETOneGenre,
       {| f_key := "Genre.Name"; f_val := ps !! "name" |});
      (route GET "/movies/director/:name" true GETOneDirector,
       {| f_key := "Director.Name"; f_val := ps !! "name" |}) ] ->
  fault (db s) (FindOne Movies f) = None ->
  ((forall m, m ∈ movies (db s) -> matches f m = false) ->
   app req s = (json 200 VNull, record (FindOne Movies f) s)) /\
  (forall i m,
     movies (db s) !! i = Some m ->
     matches f m = true ->
     (forall j m', (j < i)%nat -> movies (db s) !! j = Some m' -> matches f m' = false) ->
     app req s = (json 200 (VObj m), record (FindOne Movies f) s)).
Proof.
  intros Hd Ha Hr Hf.
  assert (app req s = (json 200 (json_doc (snd <$> first_match f (movies (db s)))),
                       record (FindOne Movies f) s)) as ->.
  { rewrite (app_routed req s r ps Hd Ha).
    repeat (apply elem_of_cons in Hr as [[= -> ->]|Hr]);
      [| | |by apply elem_of_nil in Hr];
      cbn [r_handler route];
      unfold GETOneMovie, GETOneGenre, GETOneDirector;
      cbn [params with_params];
      by rewrite findOne_no_fault. }
  split.
  - intros Hm. apply first_match_None in Hm. by rewrite Hm.
  - intros i m Hi Hm Hlt.
    assert (first_match f (movies (db s)) = Some (i, m)) as ->; [|done].
    by apply first_match_Some.
Qed.

(** C10: an authenticated profile update, favourite addition or
    favourite removal whose filter matches no user is no error: the
    answer is 200 with [null] and the collections are as they were.
    The filter holds the decoded parameters the route binds. *)
Theorem mutation_without_target_answers_null (req : Request) (s : Sys)
    (r : Route) (ps : gmap string string) (f : Filter) (u : Update) :
  dispatch routes req = Some (r, ps) ->
  authenticated req = true ->
  (r, f, u) ∈
    [ (route PUT "/users/:ID" true PUTUpdateUser,
       {| f_key := "id"; f_val := ps !! "id" |},
       USet [("Password", body req !! "Password");
             ("Email", body req !! "Email");
             ("Birthday", body req !! "Birthday")]);
      (route POST "/users/:ID/:movieID" true POSTAddFavoriteMovie,
       {| f_key := "user_name"; f_val := ps !! "ID" |},
       UPush "FavoriteMovies" (ps !! "movieID"));
      (route DELETE "/users/:ID/:deleteFavorite" true DELETERemoveFavoriteMovie,
       {| f_key := "user_name"; f_val := ps !! "id" |},
       UPull "FavoriteMovies" (ps !! "MovieID")) ] ->
  fault (db s) (FindOneAndUpdate Users f u) = None ->
  (forall d, d ∈ users (db s) -> matches f d = false) ->
  app req s = (json 200 VNull, record (FindOneAndUpdate Users f u) s) /\
  db (app req s).2 = db s.
Proof.
  intros Hd Ha Hr Hf Hm.
  assert (app req s = (json 200 VNull, record (FindOneAndUpdate Users f u) s)) as ->;
    [|done].
  rewrite (app_routed req s r ps Hd Ha).
  repeat (apply elem_of_cons in Hr as [[= -> -> ->]|Hr]);
    [| | |by apply elem_of_nil in Hr];
    cbn [r_handler route];
    unfold PUTUpdateUser, POSTAddFavoriteMovie, DELETERemoveFavoriteMovie;
    cbn [params body with_params];
    by rewrite findOneAndUpdate_no_match.
Qed.

Lemma POSTAddUser_status (req : Request) (s : Sys) :
  let code := status (POSTAddUser req s).1 in
  code = 422%nat \/ code = 400%nat \/ code = 201%nat \/ code = 500%nat.
Proof.
  unfold POSTAddUser.
  destruct (negb (isEmpty (validationResult signup_checks req))); [by left|].
  destruct (findOne Users _ s) as [[[user|]|err] s1];
    [by right; left| |by right; right; right].
  destruct (create Users _ s1) as [[user|err] s2];
    [by right; right; left|by right; right; right].
Qed.

(** C4: the routes that do not carry the guard are exactly the
    documentation page, the welcome page and account creation.  A
    request the router hands to any other route without a valid token is
    answered 401, and neither the store nor the journal of store calls
    changes; a request to one of the three is served the same whatever
    token it bears, and never with 401.  A path whose parameter does
    not decode is handed to no route. *)
Theorem guard_covers_all_but_three (req : Request) (s : Sys) (r : Route)
    (ps : gmap string string) :
  dispatch routes req = Some (r, ps) ->
  (r_auth r = false <->
   (r_method r, r_pattern r) ∈ [(GET, "/documentation"); (GET, "/"); (POST, "/users")]) /\
  (r_auth r = true -> authenticated req = false -> app req s = (unauthorized, s)) /\
  (r_auth r = false ->
   status (app req s).1 <> 401%nat /\
   forall tok, app (with_token tok req) s = app req s).
Proof.
  intros Hd. pose proof (dispatch_In _ _ _ _ Hd) as Hin.
  split; [|split].
  - assert (r_auth r = negb (bool_decide
              ((r_method r, r_pattern r) ∈
               [(GET, "/documentation"); (GET, "/"); (POST, "/users")]))) as Hb.
    { unfold routes in Hin.
      repeat (apply elem_of_cons in Hin as [->|Hin]);
        [..|by apply elem_of_nil in Hin]; vm_compute; reflexivity. }
    rewrite Hb. case_bool_decide; simpl; split; done.
  - intros Hg Ha. rewrite (app_served req s r ps Hd). by apply serve_reject.
  - intros Hg. split.
    + rewrite (app_served req s r ps Hd), serve_open by done.
      unfold routes in Hin.
      repeat (apply elem_of_cons in Hin as [->|Hin]);
        [..|by apply elem_of_nil in Hin];
        cbn [r_auth route] in Hg; try discriminate Hg;
        cbn [r_handler route].
      * unfold documentation. simpl. lia.
      * unfold welcome. simpl. lia.
      * pose proof (POSTAddUser_status (with_params ps req) s) as Hs.
        simpl in Hs. lia.
    + intros tok.
      rewrite (app_served (with_token tok req) s r ps)
        by (by rewrite dispatch_with_token).
      rewrite (app_served req s r ps Hd), !serve_open by done.
      unfold routes in Hin.
      repeat (apply elem_of_cons in Hin as [->|Hin]);
        [..|by apply elem_of_nil in Hin];
        cbn [r_auth route] in Hg; try discriminate Hg;
        by destruct req.
Qed.

Lemma validationResult_signup (req : Request) :
  validationResult signup_checks req = signup_violations req.
Proof.
  unfold validationResult, signup_checks, signup_violations, check.
  cbn [flat_map]. unfold run_chain at 1 2 3 4.
  cbn [c_field c_msg c_validator passes]. rewrite app_nil_r.
  repeat f_equal.
  - destruct (Nat.leb_spec 5 (char_count (default "" (body req !! "Username"))));
      destruct (Nat.ltb_spec (char_count (default "" (body req !! "Username"))) 5);
      (done || lia).
  - by destruct (bool_decide (default "" (body req !! "Password") = "")).
Qed.

(** C2: a signup whose body breaks any of the four rules is answered 422
    with the violations of all the rules it breaks, in rule order; the
    store is not called and no record is created.  The length of the
    Username is its number of characters, not of bytes. *)
Theorem invalid_signup_answers_422 (req : Request) (s : Sys) :
  method req = POST ->
  path req = "/users" ->
  (char_count (default "" (body req !! "Username")) < 5)%nat \/
  alphanumeric (default "" (body req !! "Username")) = false \/
  default "" (body req !! "Password") = "" \/
  isEmail (default "" (body req !! "Email")) = false ->
  signup_violations req <> [] /\
  app req s =
  (json 422 (VObj (obj_of [("errors",
                            Some (VArr (error_json <$> signup_violations req)))])),
   s).
Proof.
  intros Hm Hp Hbad.
  assert (signup_violations req <> []) as Hne.
  { unfold signup_violations. intros Hnil.
    apply app_eq_nil in Hnil as [H1 Hnil].
    apply app_eq_nil in Hnil as [H2 Hnil].
    apply app_eq_nil in Hnil as [H3 H4].
    destruct Hbad as [Hu|[Ha|[Hpw|He]]].
    - apply Nat.ltb_lt in Hu. by rewrite Hu in H1.
    - by rewrite Ha in H2.
    - rewrite Hpw in H3. done.
    - by rewrite He in H4. }
  split; [done|].
  rewrite (app_served req s (route POST "/users" false POSTAddUser) ∅)
    by (clear -Hm Hp; routed req).
  rewrite serve_open by done. cbn [r_handler route].
  unfold POSTAddUser. rewrite validationResult_signup.
  replace (signup_violations (with_params ∅ req)) with (signup_violations req) by done.
  destruct (signup_violations req); [done|]. reflexivity.
Qed.

Lemma first_match_found (f : Filter) (l : list Doc) (d : Doc) :
  d ∈ l -> matches f d = true -> exists i d', first_match f l = Some (i, d').
Proof.
  intros Hd Hm. destruct (first_match f l) as [[i d']|] eqn:Hf; [by eauto|].
  rewrite first_match_None in Hf. rewrite (Hf d Hd) in Hm. done.
Qed.

Lemma matches_Username (u : string) (d : Doc) :
  matches {| f_key := "Username"; f_val := Some u |} d = true <->
  d !! "Username" = Some (VStr u).
Proof.
  rewrite matches_top by reflexivity.
  destruct (d !! "Username") as [[| |t| |]|]; try (split; done).
  case_bool_decide; split; congruence.
Qed.

(** C3: a valid signup whose Username is held by a stored user is
    answered 400 with the Username followed by ["already exists"] and
    the collection is unchanged; one whose Username is free appends
    exactly one user, holding the hash of the submitted password, and is
    answered 201 with that user. *)
Theorem signup_checks_then_creates (req : Request) (s : Sys)
    (u p e : string) (q : Call) (user : Doc) :
  method req = POST ->
  path req = "/users" ->
  validationResult signup_checks req = [] ->
  body req !! "Username" = Some u ->
  body req !! "Password" = Some p ->
  body req !! "Email" = Some e ->
  q = FindOne Users {| f_key := "Username"; f_val := Some u |} ->
  user = new_user (obj_of [("Username", Some (VStr u));
                           ("Password", Some (VStr (hashPassword p)));
                           ("Email", Some (VStr e));
                           ("Birthday", VStr <$> body req !! "Birthday")]) ->
  fault (db s) q = None ->
  ((exists d, d ∈ users (db s) /\ d !! "Username" = Some (VStr u)) ->
   app req s = (send 400 (u ++ "already exists"), record q s) /\
   users (db (app req s).2) = users (db s)) /\
  ((forall d, d ∈ users (db s) -> d !! "Username" <> Some (VStr u)) ->
   fault (db s) (Create Users user) = None ->
   app req s = (json 201 (VObj user),
                commit Users (users (db s) ++ [user])%list
                  (record (Create Users user) (record q s))) /\
   users (db (app req s).2) = (users (db s) ++ [user])%list /\
   user !! "Password" = Some (VStr (hashPassword p))).
Proof.
  intros Hm Hp Hv Hu Hpw He -> -> Hq.
  assert (app req s = POSTAddUser (with_params ∅ req) s) as ->.
  { rewrite (app_served req s (route POST "/users" false POSTAddUser) ∅)
      by (clear -Hm Hp; routed req).
    by rewrite serve_open. }
  unfold POSTAddUser.
  replace (validationResult signup_checks (with_params ∅ req))
    with (validationResult signup_checks req) by done.
  rewrite Hv. cbn [isEmpty negb body with_params].
  rewrite Hu, Hpw, He. cbn [fmap option_fmap option_map js_str].
  rewrite findOne_no_fault by done. cbn [docs].
  split.
  - intros (d & Hd & Hdu). apply matches_Username in Hdu.
    destruct (first_match_found _ _ _ Hd Hdu) as (i & d' & ->). done.
  - intros Hfree Hc.
    assert (first_match {| f_key := "Username"; f_val := Some u |} (users (db s)) = None) as ->.
    { apply first_match_None. intros d Hd.
      destruct (matches _ d) eqn:Hmd; [|done].
      apply matches_Username in Hmd. by apply Hfree in Hmd. }
    cbn [fmap option_fmap option_map].
    unfold create. cbn [record db]. rewrite Hc.
    split; [done|]. split; [done|].
    unfold new_user, obj_of. cbn [foldr fst snd].
    rewrite !lookup_insert_ne by done.
    destruct (VStr <$> body req !! "Birthday");
      rewrite ?lookup_insert_ne by done;
      rewrite lookup_empty;
      rewrite lookup_insert_ne by done;
      rewrite ?lookup_insert_ne by done;
      by rewrite lookup_insert_eq.
Qed.

Lemma routing_sound (table : list Route) (req : Request) r ps :
  routing table req = To r ps ->
  r_method r = method req /\ match_path (r_pattern r) (path req) = Hit ps.
Proof.
  induction table as [|x table IH]; simpl; [done|].
  destruct (match_path (r_pattern x) (path req)) eqn:Hp; [done|done|].
  case_bool_decide as Hm; [|done].
  by intros [= <- <-].
Qed.

Lemma dispatch_sound (table : list Route) (req : Request) r ps :
  dispatch table req = Some (r, ps) ->
  r_method r = method req /\ match_path (r_pattern r) (path req) = Hit ps.
Proof. rewrite dispatch_Some. apply routing_sound. Qed.

Lemma match_path_Hit (pattern p : string) (ps : gmap string string) :
  match_path pattern p = Hit ps ->
  exists pat segs,
    segments pattern = Some pat /\ segments p = Some segs /\
    fits (parse_seg <$> pat) segs = true /\
    bind_params (parse_seg <$> pat) segs ∅ = Some ps.
Proof.
  unfold match_path.
  destruct (segments pattern) as [pat|]; [|done].
  destruct (segments p) as [segs|]; [|done].
  destruct (fits (parse_seg <$> pat) segs) eqn:Hf; [|done].
  destruct (bind_params (parse_seg <$> pat) segs ∅) as [ps'|] eqn:Hb; [|done].
  intros [= <-]. by exists pat, segs.
Qed.

(** Decoding does not empty a segment. *)
Lemma escapes_nonempty (s : string) (l : list (bool * nat)) :
  escapes s = Some l -> s <> "" -> l <> [].
Proof.
  destruct s as [|c rest]; [done|]. intros He _. cbn [escapes] in He.
  destruct (Ascii.eqb c "%").
  - destruct rest as [|h [|k rest']]; try done.
    destruct (hex_digit h), (hex_digit k); try done.
    destruct (escapes rest'); [|done]. by injection He as <-.
  - destruct (escapes rest); [|done]. by injection He as <-.
Qed.

Lemma octets_nonempty (l : list (bool * nat)) (os : list nat) :
  octets l = Some os -> l <> [] -> os <> [].
Proof.
  destruct l as [|[e b] l1]; [done|]. intros Ho _. cbn [octets] in Ho.
  destruct e.
  - destruct (b <? 128)%nat.
    { destruct (octets l1); [|done]. by injection Ho as <-. }
    destruct l1 as [|[[|] b2] l2]; try done.
    destruct ((194 <=? b)%nat && (b <=? 223)%nat).
    { destruct (continuation b2); [|done].
      destruct (octets l2); [|done]. by injection Ho as <-. }
    destruct l2 as [|[[|] b3] l3]; try done.
    destruct ((224 <=? b)%nat && (b <=? 239)%nat).
    { destruct (second_octet b b2 && continuation b3); [|done].
      destruct (octets l3); [|done]. by injection Ho as <-. }
    destruct l3 as [|[[|] b4] l4]; try done.
    destruct ((240 <=? b)%nat && (b <=? 244)%nat && second_octet b b2
              && continuation b3 && continuation b4); [|done].
    destruct (octets l4); [|done]. by injection Ho as <-.
  - destruct (octets l1); [|done]. by injection Ho as <-.
Qed.

Lemma decode_nonempty (s v : string) :
  decode s = Some v -> s <> "" -> v <> "".
Proof.
  unfold decode. intros Hd Hs.
  destruct (escapes s) as [l|] eqn:He; [|done].
  destruct (octets l) as [os|] eqn:Ho; [|done].
  injection Hd as <-.
  pose proof (octets_nonempty l os Ho (escapes_nonempty s l He Hs)) as Hos.
  by destruct os.
Qed.

Lemma bind_params_lookup (pat : list Seg) (segs : list string)
    (ps0 ps : gmap string string) :
  fits pat segs = true ->
  bind_params pat segs ps0 = Some ps ->
  forall name v,
    ps !! name = Some v ->
    ps0 !! name = Some v \/
    (name ∈ seg_names pat /\
     exists seg, seg ∈ segs /\ seg <> "" /\ decode seg = Some v).
Proof.
  revert segs ps0. induction pat as [|[l|n] pat IH]; intros [|x segs] ps0; simpl; try done.
  - intros _ [= <-]. auto.
  - intros Hf Hb name v Hv. apply andb_true_iff in Hf as [_ Hf].
    destruct (IH _ _ Hf Hb name v Hv) as [?|(? & seg & ? & ? & ?)]; [by left|right].
    split; [done|]. exists seg. split; [by apply list_elem_of_further|done].
  - intros Hf Hb name v Hv. apply andb_true_iff in Hf as [Hx Hf].
    apply negb_true_iff, bool_decide_eq_false in Hx.
    destruct (decode x) as [w|] eqn:Hw; [|done].
    destruct (IH _ _ Hf Hb name v Hv) as [H0|(? & seg & ? & ? & ?)].
    + destruct (decide (n = name)) as [->|Hne].
      * rewrite lookup_insert_eq in H0. injection H0 as <-. right.
        split; [apply list_elem_of_here|]. exists x.
        split; [apply list_elem_of_here|done].
      * rewrite lookup_insert_ne in H0 by done. by left.
    + right. split; [by apply list_elem_of_further|].
      exists seg. split; [by apply list_elem_of_further|done].
Qed.

Lemma bind_params_binds (pat : list Seg) (segs : list string)
    (ps0 ps : gmap string string) :
  fits pat segs = true ->
  bind_params pat segs ps0 = Some ps ->
  forall name, name ∈ seg_names pat \/ is_Some (ps0 !! name) -> is_Some (ps !! name).
Proof.
  revert segs ps0. induction pat as [|[l|n] pat IH]; intros [|x segs] ps0; simpl; try done.
  - intros _ [= <-] name [Hn|?]; [|done]. by apply elem_of_nil in Hn.
  - intros Hf Hb name Hn. apply andb_true_iff in Hf as [_ Hf]. by apply (IH _ _ Hf Hb).
  - intros Hf Hb name Hn. apply andb_true_iff in Hf as [_ Hf].
    destruct (decode x) as [w|] eqn:Hw; [|done].
    apply (IH _ _ Hf Hb). destruct Hn as [Hn|Hn].
    + apply elem_of_cons in Hn as [->|Hn]; [right|by left].
      rewrite lookup_insert_eq. by eexists.
    + right. destruct (decide (n = name)) as [->|Hne].
      * rewrite lookup_insert_eq. by eexists.
      * by rewrite lookup_insert_ne.
Qed.

Lemma dispatch_defined (req : Request) r ps name :
  dispatch routes req = Some (r, ps) ->
  name ∈ param_names (r_pattern r) ->
  exists v, ps !! name = Some v /\ v <> "".
Proof.
  intros Hd Hn. apply dispatch_sound in Hd as [_ Hp].
  apply match_path_Hit in Hp as (pat & segs & Hpat & _ & Hf & Hb).
  unfold param_names in Hn. rewrite Hpat in Hn.
  destruct (bind_params_binds _ _ _ _ Hf Hb name (or_introl Hn)) as [v Hv].
  exists v. split; [done|].
  destruct (bind_params_lookup _ _ _ _ Hf Hb name v Hv) as [H0|(_ & seg & _ & Hne & Hdec)].
  - by rewrite lookup_empty in H0.
  - by eapply decode_nonempty.
Qed.

Lemma dispatch_undefined (req : Request) r ps name :
  dispatch routes req = Some (r, ps) ->
  name ∉ param_names (r_pattern r) ->
  ps !! name = None.
Proof.
  intros Hd Hn. apply dispatch_sound in Hd as [_ Hp].
  apply match_path_Hit in Hp as (pat & segs & Hpat & _ & Hf & Hb).
  unfold param_names in Hn. rewrite Hpat in Hn.
  destruct (ps !! name) as [v|] eqn:Hv; [|done].
  destruct (bind_params_lookup _ _ _ _ Hf Hb name v Hv) as [H0|(? & _)]; [|done].
  by rewrite lookup_empty in H0.
Qed.

(** What the profile update reads as [req.params.id]: the route binds
    its parameter under the name [ID], so [id] is undefined whatever
    the path says. *)
Lemma PUTUpdateUser_params (req : Request) (ps : gmap string string) :
  dispatch routes req = Some (route PUT "/users/:ID" true PUTUpdateUser, ps) ->
  ps !! "id" = None /\ is_Some (ps !! "ID").
Proof.
  intros Hd. split.
  - apply (dispatch_undefined req _ ps "id" Hd). cbn [r_pattern route].
    change (param_names "/users/:ID") with ["ID"].
    intros H. apply elem_of_cons in H as [H|H]; [discriminate H|].
    by apply elem_of_nil in H.
  - destruct (dispatch_defined req _ ps "ID" Hd) as (v & Hv & _); [|by eexists].
    cbn [r_pattern route]. change (param_names "/users/:ID") with ["ID"].
    apply list_elem_of_here.
Qed.

(** What the favourite removal reads as [req.params.id] and
    [req.params.MovieID]: the route binds [ID] and [deleteFavorite], so
    both are undefined. *)
Lemma DELETERemoveFavoriteMovie_params (req : Request) (ps : gmap string string) :
  dispatch routes req =
    Some (route DELETE "/users/:ID/:deleteFavorite" true DELETERemoveFavoriteMovie, ps) ->
  ps !! "id" = None /\ ps !! "MovieID" = None.
Proof.
  intros Hd. split.
  - apply (dispatch_undefined req _ ps "id" Hd). cbn [r_pattern route].
    change (param_names "/users/:ID/:deleteFavorite") with ["ID"; "deleteFavorite"].
    intros H. repeat (apply elem_of_cons in H as [H|H]; [discriminate H|]).
    by apply elem_of_nil in H.
  - apply (dispatch_undefined req _ ps "MovieID" Hd). cbn [r_pattern route].
    change (param_names "/users/:ID/:deleteFavorite") with ["ID"; "deleteFavorite"].
    intros H. repeat (apply elem_of_cons in H as [H|H]; [discriminate H|]).
    by apply elem_of_nil in H.
Qed.

(** At the level of the store's operators the round trip is sound for an
    id the list does not hold yet: pulling what was just pushed gives
    the list back. *)
Lemma pull_push_fresh (m : string) (l : list Value) :
  (forall x, x ∈ l -> is_str m x = false) ->
  pull (Some m) (push (Some m) l) = l.
Proof.
  unfold pull, push. intros Hl. rewrite filter_app. simpl bson.
  rewrite filter_cons_False, filter_nil, app_nil_r.
  - induction l as [|x l IH]; [done|].
    rewrite filter_cons_True by (apply Hl, list_elem_of_here).
    f_equal. apply IH. intros y Hy. by apply Hl, list_elem_of_further.
  - simpl. by rewrite bool_decide_eq_true_2.
Qed.

(** ** Beyond the contract: what every request leaves alone *)

Lemma find_sys c s : (find c s).2 = record (Find c) s.
Proof. unfold find. cbn [db record]. by destruct (fault (db s) (Find c)). Qed.

Lemma findOne_sys c f s : (findOne c f s).2 = record (FindOne c f) s.
Proof. unfold findOne. cbn [db record]. by destruct (fault (db s) (FindOne c f)). Qed.

(** The three ways a [findOneAndUpdate] ends. *)
Lemma findOneAndUpdate_cases c f u s :
  let s1 := record (FindOneAndUpdate c f u) s in
  (exists err, findOneAndUpdate c f u s = (Rejected err, s1)) \/
  findOneAndUpdate c f u s = (Resolved None, s1) \/
  (exists i d d',
     first_match f (docs c (db s)) = Some (i, d) /\
     apply_update u d = Resolved d' /\
     findOneAndUpdate c f u s =
     (Resolved (Some d'), commit c (<[i := d']> (docs c (db s))) s1)).
Proof.
  unfold findOneAndUpdate. cbn [db record].
  destruct (fault (db s) (FindOneAndUpdate c f u)) as [err|]; [left; by eexists|].
  destruct (first_match f (docs c (db s))) as [[i d]|] eqn:Hf; [|by right; left].
  destruct (apply_update u d) as [d'|err] eqn:Hu; [|left; by eexists].
  right; right. exists i, d, d'. by rewrite Hu.
Qed.

Lemma findOneAndRemove_cases c f s :
  let s1 := record (FindOneAndRemove c f) s in
  (exists err, findOneAndRemove c f s = (Rejected err, s1)) \/
  findOneAndRemove c f s = (Resolved None, s1) \/
  (exists i d,
     first_match f (docs c (db s)) = Some (i, d) /\
     findOneAndRemove c f s =
     (Resolved (Some d), commit c (delete i (docs c (db s))) s1)).
Proof.
  unfold findOneAndRemove. cbn [db record].
  destruct (fault (db s) (FindOneAndRemove c f)) as [err|]; [left; by eexists|].
  destruct (first_match f (docs c (db s))) as [[i d]|] eqn:Hf; [|by right; left].
  right; right. by exists i, d.
Qed.

Lemma create_cases c d s :
  let s1 := record (Create c d) s in
  (exists err, create c d s = (Rejected err, s1)) \/
  create c d s = (Resolved d, commit c (docs c (db s) ++ [d])%list s1).
Proof.
  unfold create. cbn [db record].
  destruct (fault (db s) (Create c d)) as [err|]; [left; by eexists|by right].
Qed.

Lemma grows_by_refl n s : grows_by n s s.
Proof. repeat split. exists []. by rewrite app_nil_r; simpl; split; [|lia]. Qed.

Lemma grows_by_record n c s : grows_by (S n) s (record c s).
Proof. repeat split. exists [c]. simpl. split; [done|lia]. Qed.

Lemma grows_by_commit n l s s' :
  grows_by n s s' -> grows_by n s (commit Users l s').
Proof. intros (Hm & Hf & Hj). by repeat split. Qed.

Lemma grows_by_step n c s s' :
  grows_by n (record c s) s' -> grows_by (S n) s s'.
Proof.
  intros (Hm & Hf & calls & Hj & Hn). repeat split; [done..|].
  exists (c :: calls). simpl in *. rewrite Hj, <- app_assoc. split; [done|lia].
Qed.

Lemma grows_by_mono n m s s' : (n <= m)%nat -> grows_by n s s' -> grows_by m s s'.
Proof.
  intros Hnm (Hm & Hf & calls & Hj & Hn). repeat split; [done..|].
  exists calls. split; [done|lia].
Qed.

Lemma findOneAndUpdate_grows f u s :
  grows_by 1 s (findOneAndUpdate Users f u s).2.
Proof.
  destruct (findOneAndUpdate_cases Users f u s) as [[err ->]|[->|(i & d & d' & _ & _ & ->)]];
    cbn [snd]; try apply grows_by_commit; apply grows_by_record.
Qed.

Lemma findOneAndRemove_grows f s :
  grows_by 1 s (findOneAndRemove Users f s).2.
Proof.
  destruct (findOneAndRemove_cases Users f s) as [[err ->]|[->|(i & d & _ & ->)]];
    cbn [snd]; try apply grows_by_commit; apply grows_by_record.
Qed.

Lemma create_grows d s : grows_by 1 s (create Users d s).2.
Proof.
  destruct (create_cases Users d s) as [[err ->]| ->];
    cbn [snd]; try apply grows_by_commit; apply grows_by_record.
Qed.

Ltac each_route Hin :=
  unfold routes in Hin;
  repeat (apply elem_of_cons in Hin as [->|Hin]);
  [..|by apply elem_of_nil in Hin];
  cbn [r_handler r_method r_auth r_pattern route] in *.

Lemma POSTAddUser_grows req s : grows_by 2 s (POSTAddUser req s).2.
Proof.
  unfold POSTAddUser.
  destruct (negb (isEmpty (validationResult signup_checks req))); [apply grows_by_refl|].
  pose proof (findOne_sys Users
    {| f_key := "Username"; f_val := body req !! "Username" |} s) as Hs.
  destruct (findOne Users _ s) as [[[user|]|err] s1]; cbn [snd] in *; subst s1;
    try apply grows_by_record.
  eapply grows_by_step.
  pose proof (create_grows
    (new_user (obj_of [("Username", VStr <$> body req !! "Username");
                       ("Password", VStr <$> (hashPassword <$> body req !! "Password"));
                       ("Email", VStr <$> body req !! "Email");
                       ("Birthday", VStr <$> body req !! "Birthday")]))
    (record (FindOne Users {| f_key := "Username"; f_val := body req !! "Username" |}) s)) as Hc.
  by destruct (create Users _ _) as [[user|err] s2].
Qed.

Lemma handler_grows (r : Route) req s :
  r ∈ routes ->
  r_pattern r <> "/users" \/ r_method r <> POST ->
  grows_by 1 s (r_handler r req s).2.
Proof.
  intros Hin Hr. each_route Hin.
  - apply grows_by_refl.
  - apply grows_by_refl.
  - unfold GETAllMovies. pose proof (find_sys Movies s) as Hs.
    destruct (find Movies s) as [[?|?] s1]; cbn [snd] in *; subst; apply grows_by_record.
  - unfold GETOneMovie. pose proof (findOne_sys Movies {| f_key := "Title"; f_val := params req !! "title" |} s) as Hs.
    destruct (findOne Movies _ s) as [[?|?] s1]; cbn [snd] in *; subst; apply grows_by_record.
  - unfold GETOneGenre. pose proof (findOne_sys Movies {| f_key := "Genre.Name"; f_val := params req !! "name" |} s) as Hs.
    destruct (findOne Movies _ s) as [[?|?] s1]; cbn [snd] in *; subst; apply grows_by_record.
  - unfold GETOneDirector. pose proof (findOne_sys Movies {| f_key := "Director.Name"; f_val := params req !! "name" |} s) as Hs.
    destruct (findOne Movies _ s) as [[?|?] s1]; cbn [snd] in *; subst; apply grows_by_record.
  - unfold GETAllUsers. pose proof (find_sys Users s) as Hs.
    destruct (find Users s) as [[?|?] s1]; cbn [snd] in *; subst; apply grows_by_record.
  - by destruct Hr.
  - unfold PUTUpdateUser.
    pose proof (findOneAndUpdate_grows {| f_key := "id"; f_val := params req !! "id" |}
      (USet [("Password", body req !! "Password"); ("Email", body req !! "Email");
             ("Birthday", body req !! "Birthday")]) s) as Hs.
    by destruct (findOneAndUpdate Users _ _ s) as [[?|?] s1].
  - unfold POSTAddFavoriteMovie.
    pose proof (findOneAndUpdate_grows {| f_key := "user_name"; f_val := params req !! "ID" |}
      (UPush "FavoriteMovies" (params req !! "movieID")) s) as Hs.
    by destruct (findOneAndUpdate Users _ _ s) as [[?|?] s1].
  - unfold DELETEUserAccount.
    pose proof (findOneAndRemove_grows {| f_key := "id"; f_val := params req !! "id" |} s) as Hs.
    by destruct (findOneAndRemove Users _ s) as [[[?|]|?] s1].
  - unfold DELETERemoveFavoriteMovie.
    pose proof (findOneAndUpdate_grows {| f_key := "user_name"; f_val := params req !! "id" |}
      (UPull "FavoriteMovies" (params req !! "MovieID")) s) as Hs.
    by destruct (findOneAndUpdate Users _ _ s) as [[?|?] s1].
Qed.

Lemma serve_cases (r : Route) req s :
  serve r req s = (unauthorized, s) \/ serve r req s = r_handler r req s.
Proof. unfold serve. destruct (r_auth r && negb (authenticated req)); auto. Qed.

Lemma app_cases req s :
  (dispatch routes req = None /\ app req s = ((app req s).1, s)) \/
  (exists r ps, dispatch routes req = Some (r, ps) /\ r ∈ routes /\
     (app req s = (unauthorized, s) \/ app req s = r_handler r (with_params ps req) s)).
Proof.
  unfold app, dispatch. destruct (routing routes req) as [| |r ps] eqn:Hd;
    [by left..|right].
  exists r, ps. split; [done|]. split; [by eapply routing_In|]. apply serve_cases.
Qed.

(** X1: no request changes the movie collection: the API only reads
    it. *)
Theorem movies_are_read_only (req : Request) (s : Sys) :
  movies (db (app req s).2) = movies (db s).
Proof.
  destruct (app_cases req s) as [[_ ->]|(r & ps & Hd & Hin & [-> | ->])]; try done.
  destruct (decide (r_pattern r = "/users" /\ r_method r = POST)) as [[Hp Hm]|Hne].
  - each_route Hin; try discriminate Hp; try discriminate Hm.
    destruct (POSTAddUser_grows (with_params ps req) s) as (? & _). done.
  - apply not_and_l in Hne.
    destruct (handler_grows r (with_params ps req) s Hin Hne) as (? & _). done.
Qed.

(** X2: every request makes at most two calls to the store, appended to
    the journal in order, and only account creation makes more than
    one. *)
Theorem store_calls_are_bounded (req : Request) (s : Sys) :
  exists calls,
    journal (app req s).2 = (journal s ++ calls)%list /\
    (length calls <= 2)%nat /\
    (forall r ps,
       dispatch routes req = Some (r, ps) ->
       r_pattern r <> "/users" \/ r_method r <> POST ->
       (length calls <= 1)%nat).
Proof.
  destruct (app_cases req s) as [[Hd ->]|(r & ps & Hd & Hin & [-> | ->])]; cbn [snd].
  - exists []. rewrite app_nil_r. repeat split; simpl; try lia.
  - exists []. rewrite app_nil_r. repeat split; simpl; intros; lia.
  - destruct (decide (r_pattern r = "/users" /\ r_method r = POST)) as [[Hp Hm]|Hne].
    + assert (r_handler r = POSTAddUser) as ->
        by (each_route Hin; try discriminate Hp; try discriminate Hm; done).
      destruct (POSTAddUser_grows (with_params ps req) s) as (_ & _ & calls & Hj & Hn).
      exists calls. repeat split; [done..|].
      intros r' ps' Hd' Hr. rewrite Hd in Hd'. injection Hd' as <- <-.
      destruct Hr; congruence.
    + apply not_and_l in Hne.
      destruct (handler_grows r (with_params ps req) s Hin Hne) as (_ & _ & calls & Hj & Hn).
      exists calls. repeat split; [done|lia|done].
Qed.

Lemma handler_reads_only (r : Route) req s :
  r ∈ routes -> r_method r = GET -> db (r_handler r req s).2 = db s.
Proof.
  intros Hin Hm. each_route Hin; try discriminate Hm.
  - done.
  - done.
  - unfold GETAllMovies. pose proof (find_sys Movies s) as Hs.
    by destruct (find Movies s) as [[?|?] s1]; cbn [snd] in *; subst.
  - unfold GETOneMovie. pose proof (findOne_sys Movies {| f_key := "Title"; f_val := params req !! "title" |} s) as Hs.
    by destruct (findOne Movies _ s) as [[?|?] s1]; cbn [snd] in *; subst.
  - unfold GETOneGenre. pose proof (findOne_sys Movies {| f_key := "Genre.Name"; f_val := params req !! "name" |} s) as Hs.
    by destruct (findOne Movies _ s) as [[?|?] s1]; cbn [snd] in *; subst.
  - unfold GETOneDirector. pose proof (findOne_sys Movies {| f_key := "Director.Name"; f_val := params req !! "name" |} s) as Hs.
    by destruct (findOne Movies _ s) as [[?|?] s1]; cbn [snd] in *; subst.
  - unfold GETAllUsers. pose proof (find_sys Users s) as Hs.
    by destruct (find Users s) as [[?|?] s1]; cbn [snd] in *; subst.
Qed.

(** X3: a GET request, with or without a token, whether a route fits it
    or not, leaves both collections as they were. *)
Theorem get_requests_change_nothing (req : Request) (s : Sys) :
  method req = GET -> db (app req s).2 = db s.
Proof.
  intros Hm.
  destruct (app_cases req s) as [[Hd ->]|(r & ps & Hd & Hin & [-> | ->])]; try done.
  apply dispatch_sound in Hd as [Hr _]. rewrite Hm in Hr.
  by apply handler_reads_only.
Qed.

Ltac in_list := repeat first [apply list_elem_of_here | apply list_elem_of_further].

Lemma handler_status (r : Route) req s :
  r ∈ routes ->
  status (r_handler r req s).1 ∈ [200; 201; 400; 422; 500]%nat.
Proof.
  intros Hin. each_route Hin.
  - in_list.
  - in_list.
  - unfold GETAllMovies. destruct (find Movies s) as [[?|?] s1]; in_list.
  - unfold GETOneMovie. destruct (findOne Movies _ s) as [[?|?] s1]; in_list.
  - unfold GETOneGenre. destruct (findOne Movies _ s) as [[?|?] s1]; in_list.
  - unfold GETOneDirector. destruct (findOne Movies _ s) as [[?|?] s1]; in_list.
  - unfold GETAllUsers. destruct (find Users s) as [[?|?] s1]; in_list.
  - destruct (POSTAddUser_status req s) as [->|[->|[->| ->]]]; in_list.
  - unfold PUTUpdateUser. destruct (findOneAndUpdate Users _ _ s) as [[?|?] s1]; in_list.
  - unfold POSTAddFavoriteMovie. destruct (findOneAndUpdate Users _ _ s) as [[?|?] s1]; in_list.
  - unfold DELETEUserAccount. destruct (findOneAndRemove Users _ s) as [[[?|]|?] s1]; in_list.
  - unfold DELETERemoveFavoriteMovie. destruct (findOneAndUpdate Users _ _ s) as [[?|?] s1]; in_list.
Qed.

(** X4: a request that a route fits is answered with one of the
    statuses 200, 201, 400, 401, 422 and 500; 404 is left to requests
    no route fits, and a missing movie or user never produces it. *)
Theorem routed_requests_never_answer_404 (req : Request) (s : Sys) (r : Route)
    (ps : gmap string string) :
  dispatch routes req = Some (r, ps) ->
  status (app req s).1 ∈ [200; 201; 400; 401; 422; 500]%nat /\
  status (app req s).1 <> 404%nat.
Proof.
  intros Hd.
  assert (status (app req s).1 ∈ [200; 201; 400; 401; 422; 500]%nat) as Hs.
  { destruct (app_cases req s) as [[Hn _]|(r' & ps' & _ & Hin & [-> | ->])].
    - congruence.
    - in_list.
    - pose proof (handler_status r' (with_params ps' req) s Hin) as Hs.
      repeat (apply elem_of_cons in Hs as [->|Hs]); [in_list..|by apply elem_of_nil in Hs]. }
  split; [done|].
  intros Heq. rewrite Heq in Hs.
  repeat (apply elem_of_cons in Hs as [Hs|Hs]); try lia. by apply elem_of_nil in Hs.
Qed.

(** ** Routing *)

(** X5: the parameters a route hands to its handler are exactly the
    names its pattern spells, letter case included, each bound to the
    percent-decoded form of a non-empty segment of the request path; any
    other name reads as undefined. *)
Theorem params_are_the_pattern_names (req : Request) (r : Route)
    (ps : gmap string string) :
  dispatch routes req = Some (r, ps) ->
  (forall name, is_Some (ps !! name) <-> name ∈ param_names (r_pattern r)) /\
  (forall name v,
     ps !! name = Some v ->
     v <> "" /\
     exists segs seg,
       segments (path req) = Some segs /\ seg ∈ segs /\ seg <> "" /\
       decode seg = Some v).
Proof.
  intros Hd. apply dispatch_sound in Hd as [_ Hp].
  apply match_path_Hit in Hp as (pat & segs & Hpat & Hsegs & Hf & Hb).
  unfold param_names. rewrite Hpat.
  split.
  - intros name. split.
    + intros [v Hv].
      destruct (bind_params_lookup _ _ _ _ Hf Hb name v Hv) as [H0|(? & _)]; [|done].
      by rewrite lookup_empty in H0.
    + intros Hn. apply (bind_params_binds _ _ _ _ Hf Hb). by left.
  - intros name v Hv.
    destruct (bind_params_lookup _ _ _ _ Hf Hb name v Hv)
      as [H0|(_ & seg & Hin & Hne & Hdec)].
    + by rewrite lookup_empty in H0.
    + split; [by eapply decode_nonempty|]. by exists segs, seg.
Qed.

Ltac not_in_list :=
  let H := fresh in
  intros H; repeat (apply elem_of_cons in H as [H|H]; [discriminate H|]);
  by apply elem_of_nil in H.

(** A filter with a defined value on a top-level field holds of the
    documents whose field is that string. *)
Lemma matches_defined (k a : string) (d : Doc) :
  split_on "." k = [k] ->
  matches {| f_key := k; f_val := Some a |} d = true <-> d !! k = Some (VStr a).
Proof.
  intros Hk. rewrite matches_top by done.
  destruct (d !! k) as [[| |t| |]|]; try (split; done).
  case_bool_decide; split; congruence.
Qed.

Lemma matches_defined_false (k a : string) (d : Doc) :
  split_on "." k = [k] ->
  matches {| f_key := k; f_val := Some a |} d = false <-> d !! k <> Some (VStr a).
Proof.
  intros Hk. rewrite <- (matches_defined k a d Hk).
  destruct (matches _ d); split; congruence.
Qed.

(** A filter with an undefined value on a top-level field holds of the
    documents where the field is absent or null. *)
Lemma matches_undefined (k : string) (d : Doc) :
  split_on "." k = [k] ->
  matches {| f_key := k; f_val := None |} d = true <->
  d !! k = None \/ d !! k = Some VNull.
Proof.
  intros Hk. rewrite matches_top by done.
  destruct (d !! k) as [[| |t| |]|]; split; (done || auto || intros [?|?]; done).
Qed.

(** ** Account removal *)

(** X6: [DELETE /users/:id/unregister] looks for the first user whose
    field [id] is the decoded path segment.  Without one it answers 400 and the
    collection stays; with one it removes that document, and only that
    one, and answers 200; a store error gives 500.  In the 400 and
    200 texts the name is [req.params.user_name], which the route does
    not bind: both start with ["undefined"]. *)
Theorem unregister_removes_the_first_match (req : Request) (s : Sys)
    (ps : gmap string string) :
  dispatch routes req =
    Some (route DELETE "/users/:id/unregister" true DELETEUserAccount, ps) ->
  authenticated req = true ->
  exists a,
    ps !! "id" = Some a /\ a <> "" /\
    (forall err,
       fault (db s) (FindOneAndRemove Users {| f_key := "id"; f_val := Some a |}) = Some err ->
       app req s =
       (send 500 ("Error: " ++ err),
        record (FindOneAndRemove Users {| f_key := "id"; f_val := Some a |}) s)) /\
    (fault (db s) (FindOneAndRemove Users {| f_key := "id"; f_val := Some a |}) = None ->
     ((forall d, d ∈ users (db s) -> d !! "id" <> Some (VStr a)) ->
      app req s =
      (send 400 "undefined was not found",
       record (FindOneAndRemove Users {| f_key := "id"; f_val := Some a |}) s)) /\
     (forall i d,
        users (db s) !! i = Some d ->
        d !! "id" = Some (VStr a) ->
        (forall j d', (j < i)%nat -> users (db s) !! j = Some d' ->
                      d' !! "id" <> Some (VStr a)) ->
        app req s =
        (send 200 "undefined was deleted.",
         commit Users (delete i (users (db s)))
           (record (FindOneAndRemove Users {| f_key := "id"; f_val := Some a |}) s)))).
Proof.
  intros Hd Ha.
  destruct (dispatch_defined req _ ps "id" Hd) as (a & Hid & Hne);
    [cbn [r_pattern route]; change (param_names "/users/:id/unregister") with ["id"]; in_list|].
  assert (ps !! "user_name" = None) as Hun.
  { apply (dispatch_undefined req _ ps "user_name" Hd).
    cbn [r_pattern route]. change (param_names "/users/:id/unregister") with ["id"].
    not_in_list. }
  exists a. split; [done|]. split; [done|].
  rewrite (app_routed req s _ ps Hd Ha). cbn [r_handler route].
  unfold DELETEUserAccount, findOneAndRemove. cbn [params with_params db record docs].
  rewrite Hid, Hun. cbn [js_str].
  split; [intros err ->; done|]. intros ->. split.
  - intros Hnone.
    assert (first_match {| f_key := "id"; f_val := Some a |} (users (db s)) = None) as ->; [|done].
    apply first_match_None. intros d Hin. apply matches_defined_false; [done|]. by apply Hnone.
  - intros i d Hi Hdid Hlt.
    assert (first_match {| f_key := "id"; f_val := Some a |} (users (db s)) = Some (i, d)) as ->;
      [|done].
    apply first_match_Some. split; [done|]. split; [by apply matches_defined|].
    intros j d' Hj Hd'. apply matches_defined_false; [done|]. by eapply Hlt.
Qed.

(** ** Favourites *)

(** X7: [POST /users/:ID/:movieID] takes the first user whose field
    [user_name] is the first path parameter and appends the second at
    the end of that user's FavoriteMovies, whether the list holds that id
    already or not; an absent list is created with that one entry.
    No other document and no other field changes. *)
Theorem add_favourite_appends (req : Request) (s : Sys) (ps : gmap string string) :
  dispatch routes req =
    Some (route POST "/users/:ID/:movieID" true POSTAddFavoriteMovie, ps) ->
  authenticated req = true ->
  exists a m,
    ps !! "ID" = Some a /\ ps !! "movieID" = Some m /\
    (fault (db s) (FindOneAndUpdate Users {| f_key := "user_name"; f_val := Some a |}
                     (UPush "FavoriteMovies" (Some m))) = None ->
     forall i d,
       users (db s) !! i = Some d ->
       d !! "user_name" = Some (VStr a) ->
       (forall j d', (j < i)%nat -> users (db s) !! j = Some d' ->
                     d' !! "user_name" <> Some (VStr a)) ->
       forall l,
         d !! "FavoriteMovies" = Some (VArr l) \/ (d !! "FavoriteMovies" = None /\ l = []) ->
         app req s =
         (json 200 (VObj (<["FavoriteMovies" := VArr (l ++ [VStr m])]> d)),
          commit Users
            (<[i := <["FavoriteMovies" := VArr (l ++ [VStr m])]> d]> (users (db s)))
            (record (FindOneAndUpdate Users {| f_key := "user_name"; f_val := Some a |}
                       (UPush "FavoriteMovies" (Some m))) s))).
Proof.
  intros Hd Ha.
  destruct (dispatch_defined req _ ps "ID" Hd) as (a & Hid & _);
    [cbn [r_pattern route];
     change (param_names "/users/:ID/:movieID") with ["ID"; "movieID"]; in_list|].
  destruct (dispatch_defined req _ ps "movieID" Hd) as (m & Hmid & _);
    [cbn [r_pattern route];
     change (param_names "/users/:ID/:movieID") with ["ID"; "movieID"]; in_list|].
  exists a, m. split; [done|]. split; [done|].
  intros Hf i d Hi Hdn Hlt l Hl.
  rewrite (app_routed req s _ ps Hd Ha). cbn [r_handler route].
  unfold POSTAddFavoriteMovie, findOneAndUpdate. cbn [params with_params db record docs].
  rewrite Hid, Hmid, Hf.
  assert (first_match {| f_key := "user_name"; f_val := Some a |} (users (db s)) = Some (i, d)) as ->.
  { apply first_match_Some. split; [done|]. split; [by apply matches_defined|].
    intros j d' Hj Hd'. apply matches_defined_false; [done|]. by eapply Hlt. }
  unfold apply_update, push. cbn [bson].
  destruct Hl as [-> | [-> ->]]; done.
Qed.

Lemma pull_nothing (l : list Value) :
  (forall x, x ∈ l -> x <> VNull) -> pull None l = l.
Proof.
  intros Hl. unfold pull. induction l as [|x l IH]; [done|].
  rewrite filter_cons_True.
  - f_equal. apply IH. intros y Hy. by apply Hl, list_elem_of_further.
  - specialize (Hl x (list_elem_of_here _ _)). by destruct x.
Qed.

(** X8: [DELETE /users/:ID/:deleteFavorite] never takes a movie id out
    of a list.  Its filter and its operand read parameters the route
    does not bind, so when the stored favourites hold no [null] the
    users collection after the request is the one before it, whatever
    the path, the token and the store's reaction. *)
Theorem remove_favourite_removes_no_id (req : Request) (s : Sys)
    (ps : gmap string string) :
  dispatch routes req =
    Some (route DELETE "/users/:ID/:deleteFavorite" true DELETERemoveFavoriteMovie, ps) ->
  (forall d l x,
     d ∈ users (db s) -> d !! "FavoriteMovies" = Some (VArr l) -> x ∈ l -> x <> VNull) ->
  users (db (app req s).2) = users (db s).
Proof.
  intros Hd Hl. rewrite (app_served req s _ ps Hd).
  destruct (serve_cases
              (route DELETE "/users/:ID/:deleteFavorite" true DELETERemoveFavoriteMovie)
              (with_params ps req) s) as [-> | ->]; [done|].
  cbn [r_handler route].
  destruct (DELETERemoveFavoriteMovie_params req ps Hd) as [Hid Hmid].
  unfold DELETERemoveFavoriteMovie. cbn [params with_params]. rewrite Hid, Hmid.
  destruct (findOneAndUpdate_cases Users {| f_key := "user_name"; f_val := None |}
              (UPull "FavoriteMovies" None) s)
    as [[err ->]|[->|(i & d & d' & Hf & Hu & ->)]]; [done..|].
  cbn [snd commit db set_docs users]. cbn [docs] in *.
  apply first_match_Some in Hf as (Hi & _ & _).
  assert (d' = d) as ->.
  { unfold apply_update in Hu.
    destruct (d !! "FavoriteMovies") as [[| | |l|]|] eqn:Hfm; try done.
    - injection Hu as <-. change (filter _ l) with (pull None l). rewrite pull_nothing.
      + by apply insert_id.
      + intros x Hx. apply (Hl d l x); [|done..]. by eapply list_elem_of_lookup_2.
    - by injection Hu as <-. }
  by apply list_insert_id.
Qed.

(** ** Profile update *)

(** X9: the profile update does not look at its path.  Two
    authenticated requests that reach [PUT /users/:ID] with the same
    body get the same answer and leave the same system behind, whatever
    user each names. *)
Theorem profile_update_ignores_its_path (req1 req2 : Request) (s : Sys)
    (ps1 ps2 : gmap string string) :
  dispatch routes req1 = Some (route PUT "/users/:ID" true PUTUpdateUser, ps1) ->
  dispatch routes req2 = Some (route PUT "/users/:ID" true PUTUpdateUser, ps2) ->
  authenticated req1 = true ->
  authenticated req2 = true ->
  body req1 = body req2 ->
  app req1 s = app req2 s.
Proof.
  intros Hd1 Hd2 Ha1 Ha2 Hb.
  rewrite (app_routed req1 s _ ps1 Hd1 Ha1), (app_routed req2 s _ ps2 Hd2 Ha2).
  cbn [r_handler route]. unfold PUTUpdateUser. cbn [params body with_params].
  destruct (PUTUpdateUser_params req1 ps1 Hd1) as [-> _].
  destruct (PUTUpdateUser_params req2 ps2 Hd2) as [-> _].
  by rewrite Hb.
Qed.

(** X10: when the first stored user has no field [id] (as every user
    created by signup), an authenticated [PUT /users/:ID] whose body
    carries Password, Email and Birthday rewrites that user, whoever the
    path names: Password becomes the submitted string as it is, Email
    and Birthday the submitted ones; every other field and every other
    user stay. *)
Theorem profile_update_rewrites_the_first_user (req : Request) (s : Sys)
    (ps : gmap string string) (d : Doc) (rest : list Doc) (p e b : string) :
  dispatch routes req = Some (route PUT "/users/:ID" true PUTUpdateUser, ps) ->
  authenticated req = true ->
  users (db s) = d :: rest ->
  d !! "id" = None ->
  body req !! "Password" = Some p ->
  body req !! "Email" = Some e ->
  body req !! "Birthday" = Some b ->
  fault (db s)
    (FindOneAndUpdate Users {| f_key := "id"; f_val := None |}
       (USet [("Password", Some p); ("Email", Some e); ("Birthday", Some b)])) = None ->
  app req s =
  (json 200
     (VObj (<["Birthday" := VStr b]>
              (<["Email" := VStr e]> (<["Password" := VStr p]> d)))),
   commit Users
     (<["Birthday" := VStr b]>
        (<["Email" := VStr e]> (<["Password" := VStr p]> d)) :: rest)
     (record
        (FindOneAndUpdate Users {| f_key := "id"; f_val := None |}
           (USet [("Password", Some p); ("Email", Some e); ("Birthday", Some b)])) s)).
Proof.
  intros Hd Ha Hu Hid Hp He Hb Hf.
  rewrite (app_routed req s _ ps Hd Ha). cbn [r_handler route].
  unfold PUTUpdateUser, findOneAndUpdate. cbn [params body with_params db record docs].
  destruct (PUTUpdateUser_params req ps Hd) as [-> _].
  rewrite Hp, He, Hb, Hf, Hu. cbn [first_match].
  assert (matches {| f_key := "id"; f_val := None |} d = true) as ->
    by (apply matches_undefined; [done|by left]).
  done.
Qed.

(** ** Store errors *)

(** X11: when the store rejects the one call a lookup, a profile update
    or a favourites route makes, the answer is 500 with ["Error: "]
    followed by the store's error, and nothing is written. *)
Theorem store_errors_answer_500 (req : Request) (s : Sys) (r : Route)
    (ps : gmap string string) (q : Call) (err : string) :
  dispatch routes req = Some (r, ps) ->
  authenticated req = true ->
  (r, q) ∈
    [ (route GET "/movies/:title" true GETOneMovie,
       FindOne Movies {| f_key := "Title"; f_val := ps !! "title" |});
      (route GET "/movies/genre/:name" true GETOneGenre,
       FindOne Movies {| f_key := "Genre.Name"; f_val := ps !! "name" |});
      (route GET "/movies/director/:name" true GETOneDirector,
       FindOne Movies {| f_key := "Director.Name"; f_val := ps !! "name" |});
      (route PUT "/users/:ID" true PUTUpdateUser,
       FindOneAndUpdate Users {| f_key := "id"; f_val := ps !! "id" |}
         (USet [("Password", body req !! "Password");
                ("Email", body req !! "Email");
                ("Birthday", body req !! "Birthday")]));
      (route POST "/users/:ID/:movieID" true POSTAddFavoriteMovie,
       FindOneAndUpdate Users {| f_key := "user_name"; f_val := ps !! "ID" |}
         (UPush "FavoriteMovies" (ps !! "movieID")));
      (route DELETE "/users/:ID/:deleteFavorite" true DELETERemoveFavoriteMovie,
       FindOneAndUpdate Users {| f_key := "user_name"; f_val := ps !! "id" |}
         (UPull "FavoriteMovies" (ps !! "MovieID"))) ] ->
  fault (db s) q = Some err ->
  app req s = (send 500 ("Error: " ++ err), record q s).
Proof.
  intros Hd Ha Hr Hf.
  rewrite (app_routed req s r ps Hd Ha).
  repeat (apply elem_of_cons in Hr as [[= -> ->]|Hr]);
    [..|by apply elem_of_nil in Hr];
    cbn [r_handler route];
    unfold GETOneMovie, GETOneGenre, GETOneDirector, PUTUpdateUser,
      POSTAddFavoriteMovie, DELETERemoveFavoriteMovie, findOne, findOneAndUpdate;
    cbn [params body with_params db record];
    by rewrite Hf.
Qed.

(** The handler of [POST /users] once the body has passed validation. *)
Lemma POSTAddUser_valid (req : Request) (s : Sys) :
  validationResult signup_checks req = [] ->
  POSTAddUser req s =
  match findOne Users {| f_key := "Username"; f_val := body req !! "Username" |} s with
  | (Resolved (Some user), s) =>
      (send 400 (js_str (body req !! "Username") ++ "already exists"), s)
  | (Resolved None, s) =>
      match create Users
              (new_user (obj_of [("Username", VStr <$> body req !! "Username");
                                 ("Password", VStr <$> (hashPassword <$> body req !! "Password"));
                                 ("Email", VStr <$> body req !! "Email");
                                 ("Birthday", VStr <$> body req !! "Birthday")])) s with
      | (Resolved user, s) => (json 201 (VObj user), s)
      | (Rejected error, s) => (send 500 ("Error: " ++ error), s)
      end
  | (Rejected error, s) => (send 500 ("Error: " ++ error), s)
  end.
Proof. intros Hv. unfold POSTAddUser. by rewrite Hv. Qed.

Lemma app_signup (req : Request) (s : Sys) :
  method req = POST -> path req = "/users" ->
  app req s = POSTAddUser (with_params ∅ req) s.
Proof.
  intros Hm Hp.
  rewrite (app_served req s (route POST "/users" false POSTAddUser) ∅)
    by (clear -Hm Hp; routed req).
  by rewrite serve_open.
Qed.

(** X12: a valid signup that the store fails is answered 500 and
    creates nothing.  If the search for the Username is rejected, no
    creation is attempted; if the Username is free and the creation is
    rejected, the collection is as before. *)
Theorem signup_store_errors_answer_500 (req : Request) (s : Sys) (err : string)
    (user : Doc) :
  method req = POST ->
  path req = "/users" ->
  validationResult signup_checks req = [] ->
  user = new_user (obj_of [("Username", VStr <$> body req !! "Username");
                           ("Password", VStr <$> (hashPassword <$> body req !! "Password"));
                           ("Email", VStr <$> body req !! "Email");
                           ("Birthday", VStr <$> body req !! "Birthday")]) ->
  (fault (db s) (FindOne Users {| f_key := "Username"; f_val := body req !! "Username" |})
     = Some err ->
   app req s =
   (send 500 ("Error: " ++ err),
    record (FindOne Users {| f_key := "Username"; f_val := body req !! "Username" |}) s)) /\
  (fault (db s) (FindOne Users {| f_key := "Username"; f_val := body req !! "Username" |})
     = None ->
   (forall d, d ∈ users (db s) ->
      matches {| f_key := "Username"; f_val := body req !! "Username" |} d = false) ->
   fault (db s) (Create Users user) = Some err ->
   app req s =
   (send 500 ("Error: " ++ err),
    record (Create Users user)
      (record (FindOne Users {| f_key := "Username"; f_val := body req !! "Username" |}) s))).
Proof.
  intros Hm Hp Hv ->. rewrite (app_signup req s Hm Hp).
  rewrite POSTAddUser_valid by done. cbn [body with_params].
  unfold findOne. cbn [db record docs]. split.
  - by intros ->.
  - intros -> Hfree Hc. apply first_match_None in Hfree. rewrite Hfree.
    cbn [fmap option_fmap option_map]. unfold create. cbn [db record]. by rewrite Hc.
Qed.

(** ** Signup *)

(** On letters and digits, characters are bytes. *)
Lemma char_count_alnum (s : string) :
  forallb (fun c => is_digit c || is_upper c || is_lower c) (list_ascii_of_string s) = true ->
  char_count s = String.length s.
Proof.
  induction s as [|c rest IH]; [done|].
  cbn [list_ascii_of_string forallb char_count String.length].
  intros Hs. apply andb_true_iff in Hs as [Hc Hrest].
  assert (nat_of_ascii c <= 122)%nat as Hn.
  { unfold is_digit, is_upper, is_lower in Hc.
    repeat (apply orb_true_iff in Hc as [Hc|Hc]);
      apply andb_true_iff in Hc as [_ Hc]; apply Nat.leb_le in Hc; lia. }
  assert (continuation (nat_of_ascii c) = false) as ->.
  { unfold continuation. apply andb_false_iff. left. apply Nat.leb_gt. lia. }
  assert (selector c rest = false) as ->.
  { unfold selector. destruct rest as [|c2 [|c3 rest']]; try done.
    apply andb_false_iff. left. apply andb_false_iff. left. apply Nat.eqb_neq. lia. }
  by rewrite IH.
Qed.

Lemma alphanumeric_char_count (s : string) :
  alphanumeric s = true -> char_count s = String.length s.
Proof.
  unfold alphanumeric. destruct s as [|c rest]; [done|]. apply char_count_alnum.
Qed.

(** What a body that passes the four checks holds. *)
Lemma signup_valid_fields (req : Request) :
  validationResult signup_checks req = [] ->
  exists u p,
    body req !! "Username" = Some u /\
    (5 <= String.length u)%nat /\
    alphanumeric u = true /\
    body req !! "Password" = Some p /\
    p <> "" /\
    isEmail (default "" (body req !! "Email")) = true.
Proof.
  rewrite validationResult_signup. unfold signup_violations. intros Hnil.
  apply app_eq_nil in Hnil as [H1 Hnil].
  apply app_eq_nil in Hnil as [H2 Hnil].
  apply app_eq_nil in Hnil as [H3 H4].
  destruct (body req !! "Username") as [u|]; [|by simpl in H1].
  destruct (body req !! "Password") as [p|];
    [|by rewrite bool_decide_eq_true_2 in H3].
  exists u, p.
  change (default "" (Some u)) with u in *. change (default "" (Some p)) with p in *.
  destruct (Nat.ltb_spec (char_count u) 5); [done|].
  destruct (alphanumeric u) eqn:Hal; [|done].
  rewrite (alphanumeric_char_count u Hal) in *.
  case_bool_decide; [done|].
  by destruct (isEmail _).
Qed.

Lemma new_user_fields (u hp : string) (e b : option Value) :
  let user := new_user (obj_of [("Username", Some (VStr u)); ("Password", Some (VStr hp));
                                ("Email", e); ("Birthday", b)]) in
  user !! "Username" = Some (VStr u) /\
  user !! "Password" = Some (VStr hp) /\
  user !! "FavoriteMovies" = Some (VArr []) /\
  user !! "id" = None /\
  user !! "user_name" = None.
Proof.
  unfold new_user, obj_of. cbn [foldr fst snd].
  destruct e, b; cbn [foldr fst snd];
    rewrite ?lookup_insert_ne, ?lookup_empty by done;
    repeat split;
    rewrite ?lookup_insert_ne by done;
    by rewrite ?lookup_insert_eq, ?lookup_empty.
Qed.

(** Every way [POST /users] can end. *)
Lemma POSTAddUser_outcomes (req : Request) (s : Sys) :
  (validationResult signup_checks req <> [] /\ (POSTAddUser req s).2 = s /\
   status (POSTAddUser req s).1 = 422%nat) \/
  (exists u p,
     validationResult signup_checks req = [] /\
     body req !! "Username" = Some u /\ body req !! "Password" = Some p /\
     ((status (POSTAddUser req s).1 <> 201%nat /\
       users (db (POSTAddUser req s).2) = users (db s)) \/
      (fault (db s) (FindOne Users {| f_key := "Username"; f_val := Some u |}) = None /\
       (forall d, d ∈ users (db s) -> d !! "Username" <> Some (VStr u)) /\
       POSTAddUser req s =
       (json 201
          (VObj (new_user (obj_of [("Username", Some (VStr u));
                                   ("Password", Some (VStr (hashPassword p)));
                                   ("Email", VStr <$> body req !! "Email");
                                   ("Birthday", VStr <$> body req !! "Birthday")]))),
        commit Users
          (users (db s) ++
           [new_user (obj_of [("Username", Some (VStr u));
                              ("Password", Some (VStr (hashPassword p)));
                              ("Email", VStr <$> body req !! "Email");
                              ("Birthday", VStr <$> body req !! "Birthday")])])%list
          (record
             (Create Users
                (new_user (obj_of [("Username", Some (VStr u));
                                   ("Password", Some (VStr (hashPassword p)));
                                   ("Email", VStr <$> body req !! "Email");
                                   ("Birthday", VStr <$> body req !! "Birthday")])))
             (record (FindOne Users {| f_key := "Username"; f_val := Some u |}) s)))))).
Proof.
  destruct (validationResult signup_checks req) as [|e es] eqn:Hv.
  - right. destruct (signup_valid_fields req Hv) as (u & p & Hu & _ & _ & Hp & _).
    exists u, p. split; [done|]. split; [done|]. split; [done|].
    rewrite POSTAddUser_valid by done. rewrite Hu, Hp.
    cbn [fmap option_fmap option_map]. unfold findOne. cbn [db record docs].
    destruct (fault (db s) (FindOne Users _)) as [err|] eqn:Hf.
    { left. split; [simpl; lia|done]. }
    destruct (first_match _ (users (db s))) as [[i d]|] eqn:Hm.
    { left. split; [simpl; lia|done]. }
    cbn [fmap option_fmap option_map]. unfold create. cbn [db record docs].
    destruct (fault (db s) (Create Users _)) as [err|] eqn:Hc.
    { left. split; [simpl; lia|done]. }
    right. split; [done|]. split; [|done].
    intros d Hd. apply (matches_defined_false "Username" u d); [done|].
    by apply (proj1 (first_match_None _ _) Hm).
  - left. split; [done|]. unfold POSTAddUser. rewrite Hv. done.
Qed.

(** X13: a user is created only from a body that passes the checks and
    only when no stored user holds the Username.  An answer 201 to
    [POST /users] means: the Username has at least five characters, all
    alphanumeric; the Password is not empty; the Email passed; exactly
    one document was appended, it carries that Username and the hash of
    that Password, and no other document changed. *)
Theorem signup_201_means_valid_and_free (req : Request) (s : Sys) :
  method req = POST ->
  path req = "/users" ->
  status (app req s).1 = 201%nat ->
  exists u p user,
    body req !! "Username" = Some u /\
    (5 <= String.length u)%nat /\
    alphanumeric u = true /\
    body req !! "Password" = Some p /\
    p <> "" /\
    isEmail (default "" (body req !! "Email")) = true /\
    (forall d, d ∈ users (db s) -> d !! "Username" <> Some (VStr u)) /\
    users (db (app req s).2) = (users (db s) ++ [user])%list /\
    user !! "Username" = Some (VStr u) /\
    user !! "Password" = Some (VStr (hashPassword p)) /\
    (app req s).1 = json 201 (VObj user).
Proof.
  intros Hm Hp. rewrite (app_signup req s Hm Hp). intros Hs.
  destruct (POSTAddUser_outcomes (with_params ∅ req) s)
    as [(_ & _ & H422)|(u & p & Hv & Hu & Hpw & [[Hne _]|(_ & Hfree & Heq)])].
  - rewrite Hs in H422. lia.
  - done.
  - destruct (signup_valid_fields _ Hv) as (u' & p' & Hu' & Hlen & Hal & Hpw' & Hpne & He).
    rewrite Hu in Hu'. rewrite Hpw in Hpw'. injection Hu' as <-. injection Hpw' as <-.
    eexists u, p, _. rewrite Heq. cbn [fst snd commit db set_docs users].
    destruct (new_user_fields u (hashPassword p)
                (VStr <$> body req !! "Email") (VStr <$> body req !! "Birthday"))
      as (Hun & Hpass & _).
    repeat split; done.
Qed.

(** ** What a request can do to the users *)

Lemma apply_update_keeps (u : Update) (d d' : Doc) (k : string) :
  apply_update u d = Resolved d' -> k ∉ update_fields u -> d' !! k = d !! k.
Proof.
  destruct u as [fields|f v|f v]; simpl.
  - intros [= <-]. revert d. induction fields as [|[f v] fields IH]; intros d Hk; [done|].
    simpl in *. rewrite IH.
    + apply lookup_insert_ne. intros ->. apply Hk, list_elem_of_here.
    + intros Hin. by apply Hk, list_elem_of_further.
  - intros Hu Hk. assert (f <> k) by (intros ->; apply Hk, list_elem_of_here).
    destruct (d !! f) as [[| | |l|]|]; try done; injection Hu as <-;
      by rewrite lookup_insert_ne.
  - intros Hu Hk. assert (f <> k) by (intros ->; apply Hk, list_elem_of_here).
    destruct (d !! f) as [[| | |l|]|]; try done; injection Hu as <-;
      by rewrite ?lookup_insert_ne.
Qed.

Lemma users_after_update f u s :
  users (db (findOneAndUpdate Users f u s).2) = users (db s) \/
  exists i d d',
    users (db s) !! i = Some d /\
    users (db (findOneAndUpdate Users f u s).2) = <[i := d']> (users (db s)) /\
    forall k, k ∉ update_fields u -> d' !! k = d !! k.
Proof.
  destruct (findOneAndUpdate_cases Users f u s)
    as [[err ->]|[->|(i & d & d' & Hf & Hu & ->)]]; [by left..|].
  right. exists i, d, d'. apply first_match_Some in Hf as (Hi & _).
  split; [done|]. split; [done|]. intros k Hk. by eapply apply_update_keeps.
Qed.

Lemma users_step_update l l' i d d' (fields : list string) :
  l !! i = Some d -> l' = <[i := d']> l ->
  (forall k, k ∉ fields -> d' !! k = d !! k) ->
  fields ⊆ ["Password"; "Email"; "Birthday"; "FavoriteMovies"] ->
  users_step l l'.
Proof.
  intros Hi -> Hk Hsub. right; right; left. exists i, d, d'.
  split; [done|]. split; [done|]. intros k Hn. apply Hk. intros Hin. by apply Hn, Hsub.
Qed.

Ltac sub_list :=
  let x := fresh in let H := fresh in
  intros x H; repeat (apply elem_of_cons in H as [->|H]; [in_list|]);
  by apply elem_of_nil in H.

Lemma handler_users_step (r : Route) req s :
  r ∈ routes -> users_step (users (db s)) (users (db (r_handler r req s).2)).
Proof.
  intros Hin.
  destruct (decide (r_method r = GET)) as [Hm|Hm].
  { left. by rewrite handler_reads_only. }
  each_route Hin; try done.
  - destruct (POSTAddUser_outcomes req s)
      as [(_ & -> & _)|(u & p & _ & _ & _ & [[_ ->]|(_ & Hfree & ->)])]; [by left..|].
    right; left. eexists _, u. cbn [snd commit db set_docs users].
    destruct (new_user_fields u (hashPassword p)
                (VStr <$> body req !! "Email") (VStr <$> body req !! "Birthday"))
      as (Hun & _ & _ & Hid & Hname).
    repeat split; done.
  - unfold PUTUpdateUser.
    destruct (users_after_update {| f_key := "id"; f_val := params req !! "id" |}
      (USet [("Password", body req !! "Password"); ("Email", body req !! "Email");
             ("Birthday", body req !! "Birthday")]) s) as [He|(i & d & d' & Hi & He & Hk)];
      destruct (findOneAndUpdate Users _ _ s) as [[?|?] s1]; cbn [snd] in *;
      try (left; exact He);
      (eapply users_step_update; [exact Hi|exact He|exact Hk|cbn; sub_list]).
  - unfold POSTAddFavoriteMovie.
    destruct (users_after_update {| f_key := "user_name"; f_val := params req !! "ID" |}
      (UPush "FavoriteMovies" (params req !! "movieID")) s) as [He|(i & d & d' & Hi & He & Hk)];
      destruct (findOneAndUpdate Users _ _ s) as [[?|?] s1]; cbn [snd] in *;
      try (left; exact He);
      (eapply users_step_update; [exact Hi|exact He|exact Hk|cbn; sub_list]).
  - unfold DELETEUserAccount.
    destruct (findOneAndRemove_cases Users {| f_key := "id"; f_val := params req !! "id" |} s)
      as [[err ->]|[->|(i & d & _ & ->)]]; [by left..|].
    right; right; right. by exists i.
  - unfold DELETERemoveFavoriteMovie.
    destruct (users_after_update {| f_key := "user_name"; f_val := params req !! "id" |}
      (UPull "FavoriteMovies" (params req !! "MovieID")) s) as [He|(i & d & d' & Hi & He & Hk)];
      destruct (findOneAndUpdate Users _ _ s) as [[?|?] s1]; cbn [snd] in *;
      try (left; exact He);
      (eapply users_step_update; [exact Hi|exact He|exact Hk|cbn; sub_list]).
Qed.

Lemma app_users_step req s :
  users_step (users (db s)) (users (db (app req s).2)).
Proof.
  destruct (app_cases req s) as [[_ ->]|(r & ps & _ & Hin & [-> | ->])]; [by left..|].
  by apply handler_users_step.
Qed.

Lemma username_Some (d : Doc) (u : string) :
  username d = Some u <-> d !! "Username" = Some (VStr u).
Proof.
  unfold username. destruct (d !! "Username") as [[| |t| |]|]; split; congruence.
Qed.

Lemma usernames_insert (l : list Doc) (i : nat) (d d' : Doc) :
  l !! i = Some d -> username d' = username d ->
  usernames (<[i := d']> l) = usernames l.
Proof.
  revert i. induction l as [|x l IH]; intros [|i] Hi He; try done; simpl in *.
  - injection Hi as ->. unfold usernames. simpl. by rewrite He.
  - unfold usernames in *. simpl. by rewrite (IH i).
Qed.

Lemma usernames_delete (l : list Doc) (i : nat) :
  usernames (delete i l) `sublist_of` usernames l.
Proof.
  revert i. induction l as [|x l IH]; intros [|i]; try done; unfold usernames in *; simpl.
  - destruct (username x); [by apply sublist_cons|done].
  - destruct (username x); [by apply sublist_skip|done].
Qed.

(** X14: a request served on its own keeps Usernames unique.  If no two
    stored users share a Username before it, none do after it:
    signup searches before it creates, and no other route writes the
    field or adds a document. *)
Theorem usernames_stay_unique (req : Request) (s : Sys) :
  unique_usernames s -> unique_usernames (app req s).2.
Proof.
  unfold unique_usernames. intros Hnd.
  destruct (app_users_step req s)
    as [->|[(user & u & -> & Hu & _ & _ & Hfree)|[(i & d & d' & Hi & -> & Hk)|[i ->]]]].
  - done.
  - unfold usernames. rewrite omap_app. simpl.
    rewrite (proj2 (username_Some user u) Hu).
    apply NoDup_app. split; [done|]. split; [|apply NoDup_singleton].
    intros x Hx Hxu. apply list_elem_of_singleton in Hxu as ->.
    apply list_elem_of_omap in Hx as (d & Hd & Hdu).
    apply username_Some in Hdu. by apply (Hfree d).
  - rewrite (usernames_insert _ i d d'); [done..|].
    unfold username. rewrite Hk; [done|]. not_in_list.
  - eapply sublist_NoDup; [|apply usernames_delete]. done.
Qed.

(** X15: users as the API creates them stay what they are.  If no
    stored user carries a field [id] or [user_name], no request makes
    one carry it. *)
Theorem api_shape_is_kept (req : Request) (s : Sys) :
  api_shaped s -> api_shaped (app req s).2.
Proof.
  unfold api_shaped. intros Hs x Hx.
  destruct (app_users_step req s)
    as [He|[(user & u & He & _ & Hid & Hun & _)|[(i & d & d' & Hi & He & Hk)|[i He]]]];
    rewrite He in Hx.
  - by apply Hs.
  - apply elem_of_app in Hx as [Hx|Hx]; [by apply Hs|].
    by apply list_elem_of_singleton in Hx as ->.
  - apply list_elem_of_lookup in Hx as [j Hj].
    destruct (decide (i = j)) as [->|Hne].
    + rewrite list_lookup_insert_eq in Hj by (by eapply lookup_lt_Some).
      injection Hj as <-. rewrite !Hk by not_in_list.
      apply Hs. by eapply list_elem_of_lookup_2.
    + rewrite list_lookup_insert_ne in Hj by done.
      apply Hs. by eapply list_elem_of_lookup_2.
  - apply Hs. by eapply list_elem_of_delete_inv.
Qed.

(** X16: users the API created cannot be removed or given a favourite.
    When no stored user carries [id] or [user_name], an authenticated
    unregister request is answered 400 and an authenticated favourite
    addition is answered 200 with [null]; neither changes a document. *)
Theorem api_users_cannot_be_targeted (req : Request) (s : Sys)
    (ps : gmap string string) :
  api_shaped s ->
  authenticated req = true ->
  (dispatch routes req =
     Some (route DELETE "/users/:id/unregister" true DELETEUserAccount, ps) ->
   fault (db s) (FindOneAndRemove Users {| f_key := "id"; f_val := ps !! "id" |}) = None ->
   app req s =
   (send 400 "undefined was not found",
    record (FindOneAndRemove Users {| f_key := "id"; f_val := ps !! "id" |}) s)) /\
  (dispatch routes req =
     Some (route POST "/users/:ID/:movieID" true POSTAddFavoriteMovie, ps) ->
   fault (db s)
     (FindOneAndUpdate Users {| f_key := "user_name"; f_val := ps !! "ID" |}
        (UPush "FavoriteMovies" (ps !! "movieID"))) = None ->
   app req s =
   (json 200 VNull,
    record (FindOneAndUpdate Users {| f_key := "user_name"; f_val := ps !! "ID" |}
              (UPush "FavoriteMovies" (ps !! "movieID"))) s)).
Proof.
  intros Hs Ha. split; intros Hd Hf; rewrite (app_routed req s _ ps Hd Ha);
    cbn [r_handler route].
  - destruct (dispatch_defined req _ ps "id" Hd) as (a & Hid & _);
      [cbn [r_pattern route]; change (param_names "/users/:id/unregister") with ["id"];
       in_list|].
    assert (ps !! "user_name" = None) as Hun.
    { apply (dispatch_undefined req _ ps "user_name" Hd).
      cbn [r_pattern route]. change (param_names "/users/:id/unregister") with ["id"].
      not_in_list. }
    unfold DELETEUserAccount, findOneAndRemove. cbn [params with_params db record docs].
    rewrite Hf, Hun, Hid.
    assert (first_match {| f_key := "id"; f_val := Some a |} (users (db s)) = None) as ->; [|done].
    apply first_match_None. intros d Hin. apply matches_defined_false; [done|].
    destruct (Hs d Hin) as [-> _]. done.
  - destruct (dispatch_defined req _ ps "ID" Hd) as (a & Hid & _);
      [cbn [r_pattern route];
       change (param_names "/users/:ID/:movieID") with ["ID"; "movieID"]; in_list|].
    unfold POSTAddFavoriteMovie. cbn [params with_params].
    rewrite findOneAndUpdate_no_match; [done..|].
    intros d Hin. rewrite Hid. apply matches_defined_false; [done|].
    destruct (Hs d Hin) as [_ ->]. done.
Qed.

(** X17: a signup answered 201 cannot be repeated.  Whatever the store
    has come to do with other calls, if it answers the search of the
    same request sent again, that request is answered 400 with the
    Username followed by ["already exists"], after one search and no
    creation. *)
Theorem repeated_signup_is_refused (req : Request) (s : Sys) :
  method req = POST ->
  path req = "/users" ->
  status (app req s).1 = 201%nat ->
  exists u,
    body req !! "Username" = Some u /\
    forall later : Call -> option string,
      later (FindOne Users {| f_key := "Username"; f_val := Some u |}) = None ->
      app req (with_fault later (app req s).2) =
      (send 400 (u ++ "already exists"),
       record (FindOne Users {| f_key := "Username"; f_val := Some u |})
         (with_fault later (app req s).2)).
Proof.
  intros Hm Hp. rewrite (app_signup req s Hm Hp). intros Hs.
  destruct (POSTAddUser_outcomes (with_params ∅ req) s)
    as [(_ & _ & H422)|(u & p & Hv & Hu & Hpw & [[Hne _]|(_ & _ & Heq)])].
  - rewrite Hs in H422. lia.
  - done.
  - exists u. split; [done|]. intros later Hlater.
    rewrite (app_signup req _ Hm Hp). rewrite Heq. cbn [snd].
    rewrite POSTAddUser_valid by done. cbn [body with_params] in *. rewrite Hu.
    unfold findOne. cbn [db record with_fault commit set_docs fault docs users].
    rewrite Hlater.
    destruct (new_user_fields u (hashPassword p)
                (VStr <$> body req !! "Email") (VStr <$> body req !! "Birthday"))
      as (Hun & _).
    set (user := new_user _) in *.
    destruct (first_match_found {| f_key := "Username"; f_val := Some u |}
                (users (db s) ++ [user])%list user) as (i & d & ->).
    + apply elem_of_app. right. apply list_elem_of_here.
    + by apply matches_defined.
    + done.
Qed.

(** X18: a request changes the users collection in at most one place: it
    leaves it alone, or appends one user with a Username nobody holds
    and without the fields [id] and [user_name], or rewrites one
    document in place touching no field but Password, Email, Birthday
    and FavoriteMovies, or removes one document. *)
Theorem a_request_touches_one_user (req : Request) (s : Sys) :
  users_step (users (db s)) (users (db (app req s).2)).
Proof. apply app_users_step. Qed.

(** ** Which request reaches which handler *)

Lemma fits_length (pat : list Seg) (segs : list string) :
  fits pat segs = true -> length pat = length segs.
Proof.
  revert segs. induction pat as [|[l|n] pat IH]; intros [|x segs]; simpl; try done;
    intros Hf; apply andb_true_iff in Hf as [_ Hf]; by rewrite (IH segs).
Qed.

Lemma match_path_at (pattern p : string) (pat segs : list string) :
  segments pattern = Some pat ->
  segments p = Some segs ->
  match_path pattern p =
  if fits (parse_seg <$> pat) segs then
    match bind_params (parse_seg <$> pat) segs ∅ with
    | Some ps => Hit ps
    | None => Malformed
    end
  else Miss.
Proof. intros Hpat Hp. unfold match_path. by rewrite Hpat, Hp. Qed.

Lemma match_path_skip (pattern p : string) (pat segs : list string) :
  segments pattern = Some pat ->
  segments p = Some segs ->
  length pat <> length segs ->
  match_path pattern p = Miss.
Proof.
  intros Hpat Hp Hlen. rewrite (match_path_at _ _ _ _ Hpat Hp).
  destruct (fits (parse_seg <$> pat) segs) eqn:Hf; [|done].
  apply fits_length in Hf. by rewrite length_fmap in Hf.
Qed.

(** The routes of one, two and three segments, by what each length of
    path can fit. *)
Ltac skip_routes Hs :=
  rewrite ?(match_path_skip "/documentation" _ ["documentation"] _ eq_refl Hs),
          ?(match_path_skip "/" _ [] _ eq_refl Hs),
          ?(match_path_skip "/movies" _ ["movies"] _ eq_refl Hs),
          ?(match_path_skip "/movies/:title" _ ["movies"; ":title"] _ eq_refl Hs),
          ?(match_path_skip "/movies/genre/:name" _ ["movies"; "genre"; ":name"] _ eq_refl Hs),
          ?(match_path_skip "/movies/director/:name" _ ["movies"; "director"; ":name"] _ eq_refl Hs),
          ?(match_path_skip "/users" _ ["users"] _ eq_refl Hs),
          ?(match_path_skip "/users/:ID" _ ["users"; ":ID"] _ eq_refl Hs),
          ?(match_path_skip "/users/:ID/:movieID" _ ["users"; ":ID"; ":movieID"] _ eq_refl Hs),
          ?(match_path_skip "/users/:id/unregister" _ ["users"; ":id"; "unregister"] _ eq_refl Hs),
          ?(match_path_skip "/users/:ID/:deleteFavorite" _ ["users"; ":ID"; ":deleteFavorite"] _ eq_refl Hs)
    by (cbn [length]; lia).

Ltac fit_routes Hs :=
  rewrite ?(match_path_at "/documentation" _ ["documentation"] _ eq_refl Hs),
          ?(match_path_at "/" _ [] _ eq_refl Hs),
          ?(match_path_at "/movies" _ ["movies"] _ eq_refl Hs),
          ?(match_path_at "/movies/:title" _ ["movies"; ":title"] _ eq_refl Hs),
          ?(match_path_at "/movies/genre/:name" _ ["movies"; "genre"; ":name"] _ eq_refl Hs),
          ?(match_path_at "/movies/director/:name" _ ["movies"; "director"; ":name"] _ eq_refl Hs),
          ?(match_path_at "/users" _ ["users"] _ eq_refl Hs),
          ?(match_path_at "/users/:ID" _ ["users"; ":ID"] _ eq_refl Hs),
          ?(match_path_at "/users/:ID/:movieID" _ ["users"; ":ID"; ":movieID"] _ eq_refl Hs),
          ?(match_path_at "/users/:id/unregister" _ ["users"; ":id"; "unregister"] _ eq_refl Hs),
          ?(match_path_at "/users/:ID/:deleteFavorite" _ ["users"; ":ID"; ":deleteFavorite"] _ eq_refl Hs);
  cbn [fmap list_fmap parse_seg fits bind_params].

(** A path of two segments, under [/movies] or [/users], whose second
    segment does not decode: whatever the method and the token, the
    error middleware answers, and the store is not called. *)
Lemma undecodable_segment_answers_500 (req : Request) (s : Sys) (m t : string) :
  lowercase m = "movies" \/ lowercase m = "users" ->
  t <> "" ->
  decode t = None ->
  segments (path req) = Some [m; t] ->
  app req s = (send 500 "Something broke!", s).
Proof.
  intros Hm Ht Hd Hs.
  unfold app, routes. cbn [routing r_method r_pattern route].
  skip_routes Hs. fit_routes Hs.
  rewrite Hd, (bool_decide_eq_false_2 (t = "")) by done.
  destruct Hm as [-> | ->].
  - change (lowercase "movies") with "movies".
    by rewrite !(bool_decide_eq_true_2 ("movies" = "movies")).
  - change (lowercase "movies") with "movies". change (lowercase "users") with "users".
    rewrite !(bool_decide_eq_false_2 ("movies" = "users")) by done.
    by rewrite !(bool_decide_eq_true_2 ("users" = "users")).
Qed.

(** X19: registration order decides between patterns that fit the same
    path, and the parameters are the decoded segments.  A DELETE on
    [/users/<a>/unregister] is an account removal with [id] bound to
    [<a>] decoded, never a favourite removal; any other third segment
    is a favourite removal.  A GET on [/movies/<t>] is a title lookup
    for every non-empty [<t>], the words [genre] and [director]
    included; the genre lookup needs a third segment.  When a segment
    of [/users/<a>/<b>] does not decode, the request reaches no guard
    and no handler, whatever its method: the error middleware answers
    500. *)
Theorem earlier_routes_win (req : Request) (a b : string) :
  a <> "" -> b <> "" ->
  (forall x a' b',
     lowercase x = "users" ->
     decode a = Some a' -> decode b = Some b' ->
     method req = DELETE ->
     segments (path req) = Some [x; a; b] ->
     dispatch routes req =
     if bool_decide (lowercase b = "unregister")
     then Some (route DELETE "/users/:id/unregister" true DELETEUserAccount,
                {["id" := a']})
     else Some (route DELETE "/users/:ID/:deleteFavorite" true DELETERemoveFavoriteMovie,
                <["deleteFavorite" := b']> {["ID" := a']})) /\
  (forall m a' b',
     lowercase m = "movies" ->
     decode a = Some a' -> decode b = Some b' ->
     method req = GET ->
     (segments (path req) = Some [m; a] ->
      dispatch routes req =
      Some (route GET "/movies/:title" true GETOneMovie, {["title" := a']})) /\
     (segments (path req) = Some [m; a; b] ->
      lowercase a = "genre" ->
      dispatch routes req =
      Some (route GET "/movies/genre/:name" true GETOneGenre, {["name" := b']}))) /\
  (forall x s,
     lowercase x = "users" ->
     decode a = None \/ decode b = None ->
     segments (path req) = Some [x; a; b] ->
     app req s = (send 500 "Something broke!", s)).
Proof.
  intros Ha Hb. split; [|split].
  - intros x a' b' Hx Hda Hdb Hm Hs.
    unfold dispatch, routes. cbn [routing r_method r_pattern route].
    skip_routes Hs. fit_routes Hs.
    rewrite Hx, Hm, Hda, Hdb.
    change (lowercase "users") with "users". change (lowercase "movies") with "movies".
    change (lowercase "unregister") with "unregister".
    rewrite !(bool_decide_eq_false_2 ("movies" = "users")) by done.
    rewrite !(bool_decide_eq_true_2 ("users" = "users")) by done.
    rewrite !(bool_decide_eq_false_2 (a = "")) by done.
    rewrite !(bool_decide_eq_false_2 (b = "")) by done.
    rewrite (bool_decide_eq_false_2 (POST = DELETE)) by done.
    rewrite !(bool_decide_eq_true_2 (DELETE = DELETE)) by done.
    cbn [andb negb].
    destruct (decide (lowercase b = "unregister")) as [Hu|Hu].
    + rewrite Hu. by rewrite !bool_decide_eq_true_2.
    + rewrite (bool_decide_eq_false_2 ("unregister" = lowercase b)) by done.
      rewrite (bool_decide_eq_false_2 (lowercase b = "unregister")) by done.
      done.
  - intros m a' b' Hmv Hda Hdb Hm. split.
    + intros Hs. unfold dispatch, routes. cbn [routing r_method r_pattern route].
      skip_routes Hs. fit_routes Hs.
      rewrite Hmv, Hm, Hda.
      change (lowercase "movies") with "movies".
      change (lowercase "documentation") with "documentation".
      rewrite !(bool_decide_eq_true_2 ("movies" = "movies")) by done.
      rewrite !(bool_decide_eq_false_2 (a = "")) by done.
      rewrite !(bool_decide_eq_true_2 (GET = GET)) by done.
      done.
    + intros Hs Hg. unfold dispatch, routes. cbn [routing r_method r_pattern route].
      skip_routes Hs. fit_routes Hs.
      rewrite Hmv, Hm, Hg, Hdb.
      change (lowercase "movies") with "movies".
      change (lowercase "genre") with "genre".
      rewrite !(bool_decide_eq_true_2 ("movies" = "movies")) by done.
      rewrite !(bool_decide_eq_true_2 ("genre" = "genre")) by done.
      rewrite !(bool_decide_eq_false_2 (b = "")) by done.
      rewrite !(bool_decide_eq_true_2 (GET = GET)) by done.
      done.
  - intros x s Hx Hbad Hs.
    unfold app, routes. cbn [routing r_method r_pattern route].
    skip_routes Hs. fit_routes Hs.
    rewrite Hx.
    change (lowercase "users") with "users". change (lowercase "movies") with "movies".
    rewrite !(bool_decide_eq_false_2 ("movies" = "users")) by done.
    rewrite !(bool_decide_eq_true_2 ("users" = "users")) by done.
    rewrite !(bool_decide_eq_false_2 (a = "")) by done.
    rewrite !(bool_decide_eq_false_2 (b = "")) by done.
    cbn [andb negb].
    destruct (decode a) as [a'|]; [|done].
    destruct Hbad as [Hbad|Hbad]; [done|]. by rewrite Hbad.
Qed.

(** ** Tokens *)

Lemma handler_ignores_token (r : Route) (tok : option string) req s :
  r ∈ routes -> r_handler r (with_token tok req) s = r_handler r req s.
Proof. intros Hin. each_route Hin; by destruct req. Qed.

(** X20: a valid token opens every protected route for every user.  No
    handler looks at who the token belongs to: a request is served the
    same under any two tokens the guard accepts. *)
Theorem any_valid_token_serves_alike (req : Request) (s : Sys) (tok : option string) :
  authenticated req = true ->
  authenticated (with_token tok req) = true ->
  app (with_token tok req) s = app req s.
Proof.
  intros Ha Ht. unfold app. rewrite routing_with_token.
  destruct (routing routes req) as [| |r ps] eqn:Hd; [done..|].
  rewrite !serve_pass by done.
  apply routing_In in Hd.
  by apply (handler_ignores_token r tok (with_params ps req) s).
Qed.

(** ** Sequences of requests *)

Lemma first_match_insert (f : Filter) (l : list Doc) (i : nat) (d d' : Doc) :
  first_match f l = Some (i, d) -> matches f d' = true ->
  first_match f (<[i := d']> l) = Some (i, d').
Proof.
  intros Hf Hm. apply first_match_Some in Hf as (Hi & _ & Hlt).
  apply first_match_Some. split; [|split; [done|]].
  - apply list_lookup_insert_eq. by eapply lookup_lt_Some.
  - intros j x Hj Hx. rewrite list_lookup_insert_ne in Hx by lia. by eapply Hlt.
Qed.

(** X21: favourites are a list with repetitions.  Sending the same
    authenticated [POST /users/:ID/:movieID] twice stores the movie id
    twice, at the end of the list, in the first user whose [user_name]
    is the path's. *)
Theorem adding_twice_stores_twice (req : Request) (s : Sys)
    (ps : gmap string string) (a m : string) (i : nat) (d : Doc) (l : list Value) :
  dispatch routes req =
    Some (route POST "/users/:ID/:movieID" true POSTAddFavoriteMovie, ps) ->
  authenticated req = true ->
  ps !! "ID" = Some a ->
  ps !! "movieID" = Some m ->
  fault (db s) (FindOneAndUpdate Users {| f_key := "user_name"; f_val := Some a |}
                  (UPush "FavoriteMovies" (Some m))) = None ->
  first_match {| f_key := "user_name"; f_val := Some a |} (users (db s)) = Some (i, d) ->
  d !! "FavoriteMovies" = Some (VArr l) ->
  users (db (app req (app req s).2).2) =
  <[i := <["FavoriteMovies" := VArr (l ++ [VStr m; VStr m])]> d]> (users (db s)).
Proof.
  intros Hd Ha Hid Hm Hf Hfm Hl.
  rewrite !(app_routed req _ _ ps Hd Ha). cbn [r_handler route].
  unfold POSTAddFavoriteMovie. cbn [params with_params]. rewrite Hid, Hm.
  unfold findOneAndUpdate at 2. cbn [db record docs]. rewrite Hf, Hfm.
  unfold apply_update. rewrite Hl. cbn [snd].
  unfold findOneAndUpdate. cbn [db record commit set_docs fault docs users]. rewrite Hf.
  assert (matches {| f_key := "user_name"; f_val := Some a |}
            (<["FavoriteMovies" := VArr (push (Some m) l)]> d) = true) as Hm'.
  { apply first_match_Some in Hfm as (_ & Hmd & _).
    apply matches_defined in Hmd; [|done]. apply matches_defined; [done|].
    by rewrite lookup_insert_ne. }
  rewrite (first_match_insert _ _ i d _ Hfm Hm').
  unfold apply_update. rewrite lookup_insert_eq.
  cbn [snd commit db set_docs users].
  rewrite list_insert_insert_eq, insert_insert_eq.
  unfold push. cbn [bson]. by rewrite <- app_assoc.
Qed.

(** X22: a created user shows up in the list.  After a signup answered
    201, an authenticated [GET /users] that the store answers returns
    the users stored before, in order, followed by the new one. *)
Theorem signup_then_list (req get : Request) (s : Sys) :
  method req = POST ->
  path req = "/users" ->
  status (app req s).1 = 201%nat ->
  method get = GET ->
  path get = "/users" ->
  authenticated get = true ->
  fault (db s) (Find Users) = None ->
  exists user,
    (app req s).1 = json 201 (VObj user) /\
    (app get (app req s).2).1 =
    json 201 (VArr (VObj <$> (users (db s) ++ [user])%list)).
Proof.
  intros Hm Hp Hs Hgm Hgp Hga Hf.
  assert (fault (db (app req s).2) = fault (db s)) as Hfault.
  { rewrite (app_signup req s Hm Hp).
    destruct (POSTAddUser_grows (with_params ∅ req) s) as (_ & ? & _). done. }
  rewrite (app_routed get _ (route GET "/users" true GETAllUsers) ∅);
    [|clear -Hgm Hgp; routed get|done].
  cbn [r_handler route]. unfold GETAllUsers. rewrite find_result. rewrite Hfault, Hf.
  cbn [fst docs]. rewrite (app_signup req s Hm Hp) in *.
  destruct (POSTAddUser_outcomes (with_params ∅ req) s)
    as [(_ & _ & H422)|(u & p & _ & _ & _ & [[Hne _]|(_ & _ & Heq)])].
  - rewrite Hs in H422. lia.
  - done.
  - rewrite Heq. eexists. split; [done|]. done.
Qed.

(** ** Missing fields *)

(** X23: a signup body without a Username is reported twice for that
    field, first as required and then as non-alphanumeric, before any
    report on Password or Email; the answer is 422 and the store is not
    called. *)
Theorem missing_username_is_reported_twice (req : Request) (s : Sys) :
  method req = POST ->
  path req = "/users" ->
  body req !! "Username" = None ->
  exists others,
    validationResult signup_checks req =
    {| e_value := None; e_msg := "Username is required";
       e_param := "Username"; e_location := "body" |} ::
    {| e_value := None;
       e_msg := "Username contains non alphanumeric characters - not allowed.";
       e_param := "Username"; e_location := "body" |} :: others /\
    (forall e, e ∈ others -> e_param e = "Password" \/ e_param e = "Email") /\
    (length others <= 2)%nat /\
    status (app req s).1 = 422%nat /\
    (app req s).2 = s.
Proof.
  intros Hm Hp Hu.
  assert (exists others,
    validationResult signup_checks req =
    {| e_value := None; e_msg := "Username is required";
       e_param := "Username"; e_location := "body" |} ::
    {| e_value := None;
       e_msg := "Username contains non alphanumeric characters - not allowed.";
       e_param := "Username"; e_location := "body" |} :: others /\
    (forall e, e ∈ others -> e_param e = "Password" \/ e_param e = "Email") /\
    (length others <= 2)%nat) as (others & Hv & Hothers & Hlen).
  { rewrite validationResult_signup. unfold signup_violations, violation.
    rewrite Hu. cbn [default from_option].
    change (String.length "" <? 5)%nat with true. change (alphanumeric "") with false.
    cbn [app]. eexists. split; [reflexivity|]. split.
    - intros e He. apply elem_of_app in He as [He|He].
      + destruct (bool_decide _); [|by apply elem_of_nil in He].
        apply list_elem_of_singleton in He as ->. by left.
      + destruct (isEmail _); [by apply elem_of_nil in He|].
        apply list_elem_of_singleton in He as ->. by right.
    - rewrite length_app. destruct (bool_decide _), (isEmail _); simpl; lia. }
  exists others. split; [done|]. split; [done|]. split; [done|].
  rewrite (app_signup req s Hm Hp). unfold POSTAddUser.
  change (validationResult signup_checks (with_params ∅ req))
    with (validationResult signup_checks req).
  by rewrite Hv.
Qed.

End App.

(** ** The contract on the sample data *)

Local Abbreviation run := (app Sample.hashPassword Sample.isEmail Sample.verifyToken).

(** C1: after the signup of [alice1] with password ["secret"] the store
    holds the hash; an authenticated [PUT /users/alice1] whose body
    carries the password ["secret"] then stores that very string. *)
Theorem profile_update_stores_plaintext :
  users (db (run Sample.signup (Sample.fresh [] [])).2) = [Sample.alice] /\
  Sample.alice !! "Password" = Some (VStr (Sample.hashPassword "secret")) /\
  run (Sample.request PUT "/users/alice1" (Some "valid")
         [("Password", "secret"); ("Email", "a@example.com");
          ("Birthday", "1999-01-01")])
      (Sample.fresh [] [Sample.alice]) =
  (json 200 (VObj (<["Password" := VStr "secret"]> Sample.alice)),
   {| db := Sample.store [] [<["Password" := VStr "secret"]> Sample.alice];
      journal :=
        [FindOneAndUpdate Users {| f_key := "id"; f_val := None |}
           (USet [("Password", Some "secret"); ("Email", Some "a@example.com");
                  ("Birthday", Some "1999-01-01")])] |}).
Proof. repeat split; vm_compute; reflexivity. Qed.

(** C5: [bob22] holds the favourites [m0]; an authenticated
    [POST /users/bob22/m1] appends [m1], and the authenticated
    [DELETE /users/bob22/m1] that follows is answered 200 with [null]
    and leaves [m0; m1] in place. *)
Theorem favourite_removal_removes_nothing :
  run (Sample.request POST "/users/bob22/m1" (Some "valid") [])
      (Sample.fresh [] [Sample.bob]) =
  (json 200 (VObj (<["FavoriteMovies" := VArr [VStr "m0"; VStr "m1"]]> Sample.bob)),
   {| db := Sample.store []
              [<["FavoriteMovies" := VArr [VStr "m0"; VStr "m1"]]> Sample.bob];
      journal :=
        [FindOneAndUpdate Users {| f_key := "user_name"; f_val := Some "bob22" |}
           (UPush "FavoriteMovies" (Some "m1"))] |}) /\
  run (Sample.request DELETE "/users/bob22/m1" (Some "valid") [])
      (Sample.fresh []
         [<["FavoriteMovies" := VArr [VStr "m0"; VStr "m1"]]> Sample.bob]) =
  (json 200 VNull,
   {| db := Sample.store []
              [<["FavoriteMovies" := VArr [VStr "m0"; VStr "m1"]]> Sample.bob];
      journal :=
        [FindOneAndUpdate Users {| f_key := "user_name"; f_val := None |}
           (UPull "FavoriteMovies" None)] |}) /\
  Sample.bob !! "FavoriteMovies" = Some (VArr [VStr "m0"]).
Proof. repeat split; vm_compute; reflexivity. Qed.

(** C6: with [alice1] (no field [id]) stored before [bob22] (whose [id]
    is 7), an authenticated [PUT /users/7] rewrites the document of [alice1]
    and hands it back; the document of [bob22] is untouched. *)
Theorem profile_update_misses_its_target :
  run (Sample.request PUT "/users/7" (Some "valid")
         [("Password", "pw"); ("Email", "new@example.com");
          ("Birthday", "2000-01-01")])
      (Sample.fresh [] [Sample.alice; Sample.bob]) =
  (json 200
     (VObj (<["Password" := VStr "pw"]>
              (<["Email" := VStr "new@example.com"]>
                 (<["Birthday" := VStr "2000-01-01"]> Sample.alice)))),
   {| db := Sample.store []
              [<["Password" := VStr "pw"]>
                 (<["Email" := VStr "new@example.com"]>
                    (<["Birthday" := VStr "2000-01-01"]> Sample.alice));
               Sample.bob];
      journal :=
        [FindOneAndUpdate Users {| f_key := "id"; f_val := None |}
           (USet [("Password", Some "pw"); ("Email", Some "new@example.com");
                  ("Birthday", Some "2000-01-01")])] |}) /\
  Sample.bob !! "id" = Some (VStr "7") /\
  Sample.alice !! "id" = None.
Proof. repeat split; vm_compute; reflexivity. Qed.

(** C8: with [bob22] (whose [id] is 7) stored, an authenticated
    [DELETE /users/7/unregister] removes that document and answers 200
    with the text ["undefined was deleted."]. *)
Theorem unregister_confirmation_names_nobody :
  run (Sample.request DELETE "/users/7/unregister" (Some "valid") [])
      (Sample.fresh [] [Sample.bob]) =
  (send 200 "undefined was deleted.",
   {| db := Sample.store [] [];
      journal := [FindOneAndRemove Users {| f_key := "id"; f_val := Some "7" |}] |}).
Proof. vm_compute. reflexivity. Qed.

(** Witness of C2: a signup with a short, non-alphanumeric Username, no
    Password and a malformed Email collects all four violations. *)
Lemma invalid_signup_answers_422_witness :
  run (Sample.request POST "/users" None [("Username", "a!"); ("Email", "x")])
      (Sample.fresh [] [Sample.alice]) =
  (json 422
     (VObj (obj_of
        [("errors",
          Some (VArr (error_json <$>
            [ {| e_value := Some "a!"; e_msg := "Username is required";
                 e_param := "Username"; e_location := "body" |};
              {| e_value := Some "a!";
                 e_msg := "Username contains non alphanumeric characters - not allowed.";
                 e_param := "Username"; e_location := "body" |};
              {| e_value := None; e_msg := "Password is required";
                 e_param := "Password"; e_location := "body" |};
              {| e_value := Some "x"; e_msg := "Email does not appear to be valid";
                 e_param := "Email"; e_location := "body" |} ])))])),
   Sample.fresh [] [Sample.alice]).
Proof.
  refine (proj2 (invalid_signup_answers_422 Sample.hashPassword Sample.isEmail
                   Sample.verifyToken
                   (Sample.request POST "/users" None [("Username", "a!"); ("Email", "x")])
                   (Sample.fresh [] [Sample.alice]) _ _ _)).
  - reflexivity.
  - reflexivity.
  - left. vm_compute. lia.
Defined.

(** Witness of C3: repeating the signup of [alice1]. *)
Lemma signup_checks_then_creates_witness :
  run Sample.signup (Sample.fresh [] [Sample.alice]) =
  (send 400 "alice1already exists",
   {| db := Sample.store [] [Sample.alice];
      journal := [FindOne Users {| f_key := "Username"; f_val := Some "alice1" |}] |}).
Proof.
  refine (proj1 (proj1 (signup_checks_then_creates Sample.hashPassword Sample.isEmail
                   Sample.verifyToken Sample.signup (Sample.fresh [] [Sample.alice])
                   "alice1" "secret" "a@example.com" _ _ _ _ _ _ _ _ eq_refl eq_refl _) _)).
  - reflexivity.
  - reflexivity.
  - vm_compute. reflexivity.
  - reflexivity.
  - reflexivity.
  - reflexivity.
  - reflexivity.
  - exists Sample.alice. split; [apply list_elem_of_here|reflexivity].
Defined.

(** Witness of C4: [GET /movies] without a token. *)
Lemma guard_covers_all_but_three_witness :
  run (Sample.request GET "/movies" None []) (Sample.fresh [Sample.inception] []) =
  (unauthorized, Sample.fresh [Sample.inception] []).
Proof.
  refine (proj1 (proj2 (guard_covers_all_but_three Sample.hashPassword Sample.isEmail
                   Sample.verifyToken
                   (Sample.request GET "/movies" None [])
                   (Sample.fresh [Sample.inception] [])
                   (route GET "/movies" true GETAllMovies) ∅ _)) _ _).
  - reflexivity.
  - reflexivity.
  - reflexivity.
Defined.

(** Witness of C7: a title the collection does not hold. *)
Lemma lookup_answers_200_witness :
  run (Sample.request GET "/movies/Tenet" (Some "valid") [])
      (Sample.fresh [Sample.inception] []) =
  (json 200 VNull,
   {| db := Sample.store [Sample.inception] [];
      journal := [FindOne Movies {| f_key := "Title"; f_val := Some "Tenet" |}] |}).
Proof.
  refine (proj1 (lookup_answers_200 Sample.hashPassword Sample.isEmail
                   Sample.verifyToken
                   (Sample.request GET "/movies/Tenet" (Some "valid") [])
                   (Sample.fresh [Sample.inception] [])
                   (route GET "/movies/:title" true GETOneMovie)
                   {["title" := "Tenet"]}
                   {| f_key := "Title"; f_val := Some "Tenet" |} _ _ _ _) _).
  - reflexivity.
  - reflexivity.
  - apply list_elem_of_here.
  - reflexivity.
  - intros m Hm. apply list_elem_of_singleton in Hm. rewrite Hm. reflexivity.
Defined.

(** Witness of C9: the list of movies. *)
Lemma list_endpoints_answer_201_witness :
  run (Sample.request GET "/movies" (Some "valid") [])
      (Sample.fresh [Sample.inception] []) =
  (json 201 (VArr [VObj Sample.inception]),
   {| db := Sample.store [Sample.inception] []; journal := [Find Movies] |}).
Proof.
  refine (proj1 (list_endpoints_answer_201 Sample.hashPassword Sample.isEmail
                   Sample.verifyToken
                   (Sample.request GET "/movies" (Some "valid") [])
                   (Sample.fresh [Sample.inception] []) _ _) _).
  - reflexivity.
  - reflexivity.
  - reflexivity.
Defined.

(** Witness of C10: adding a favourite for a user nobody is. *)
Lemma mutation_without_target_answers_null_witness :
  run (Sample.request POST "/users/carol/m1" (Some "valid") [])
      (Sample.fresh [] [Sample.bob]) =
  (json 200 VNull,
   {| db := Sample.store [] [Sample.bob];
      journal :=
        [FindOneAndUpdate Users {| f_key := "user_name"; f_val := Some "carol" |}
           (UPush "FavoriteMovies" (Some "m1"))] |}).
Proof.
  refine (proj1 (mutation_without_target_answers_null Sample.hashPassword Sample.isEmail
                   Sample.verifyToken
                   (Sample.request POST "/users/carol/m1" (Some "valid") [])
                   (Sample.fresh [] [Sample.bob])
                   (route POST "/users/:ID/:movieID" true POSTAddFavoriteMovie)
                   (<["movieID" := "m1"]> {["ID" := "carol"]})
                   {| f_key := "user_name"; f_val := Some "carol" |}
                   (UPush "FavoriteMovies" (Some "m1")) _ _ _ _ _)).
  - reflexivity.
  - reflexivity.
  - apply list_elem_of_further, list_elem_of_here.
  - reflexivity.
  - intros d Hd. apply list_elem_of_singleton in Hd. rewrite Hd. reflexivity.
Defined.

(** ** The further properties on the sample data *)

Local Abbreviation table := (routes Sample.hashPassword Sample.isEmail).

(** Witness of X3: listing the users. *)
Lemma get_requests_change_nothing_witness :
  db (run (Sample.request GET "/users" (Some "valid") [])
          (Sample.fresh [] [Sample.alice])).2 =
  Sample.store [] [Sample.alice].
Proof.
  exact (get_requests_change_nothing Sample.hashPassword Sample.isEmail Sample.verifyToken
           (Sample.request GET "/users" (Some "valid") [])
           (Sample.fresh [] [Sample.alice]) eq_refl).
Defined.

(** Witness of X4: a lookup that finds nothing. *)
Lemma routed_requests_never_answer_404_witness :
  status (run (Sample.request GET "/movies/Tenet" (Some "valid") [])
              (Sample.fresh [Sample.inception] [])).1 <> 404%nat.
Proof.
  exact (proj2 (routed_requests_never_answer_404 Sample.hashPassword Sample.isEmail
                  Sample.verifyToken
                  (Sample.request GET "/movies/Tenet" (Some "valid") [])
                  (Sample.fresh [Sample.inception] [])
                  (route GET "/movies/:title" true GETOneMovie)
                  {["title" := "Tenet"]} eq_refl)).
Defined.

(** Witness of X5: the profile update binds [ID], not [id]. *)
Lemma params_are_the_pattern_names_witness :
  is_Some (({["ID" := "alice1"]} : gmap string string) !! "id") <->
  "id" ∈ param_names "/users/:ID".
Proof.
  exact (proj1 (params_are_the_pattern_names Sample.hashPassword Sample.isEmail
                  (Sample.request PUT "/users/alice1" (Some "valid") [])
                  (route PUT "/users/:ID" true PUTUpdateUser)
                  {["ID" := "alice1"]} eq_refl) "id").
Defined.

(** Witness of X6: removing the user whose [id] is 7. *)
Lemma unregister_removes_the_first_match_witness :
  exists a, ({["id" := "7"]} : gmap string string) !! "id" = Some a /\ a <> "".
Proof.
  destruct (unregister_removes_the_first_match Sample.hashPassword Sample.isEmail
              Sample.verifyToken
              (Sample.request DELETE "/users/7/unregister" (Some "valid") [])
              (Sample.fresh [] [Sample.bob]) {["id" := "7"]} eq_refl eq_refl)
    as (a & Ha & Hne & _).
  exists a. split; assumption.
Defined.

(** Witness of X7: a favourite for [bob22]. *)
Lemma add_favourite_appends_witness :
  exists a m,
    (<["movieID" := "m1"]> {["ID" := "bob22"]} : gmap string string) !! "ID" = Some a /\
    (<["movieID" := "m1"]> {["ID" := "bob22"]} : gmap string string) !! "movieID" = Some m.
Proof.
  destruct (add_favourite_appends Sample.hashPassword Sample.isEmail Sample.verifyToken
              (Sample.request POST "/users/bob22/m1" (Some "valid") [])
              (Sample.fresh [] [Sample.bob])
              (<["movieID" := "m1"]> {["ID" := "bob22"]}) eq_refl eq_refl)
    as (a & m & Ha & Hm & _).
  exists a, m. split; assumption.
Defined.

(** Witness of X8: trying to remove [m0] from the favourites of [bob22]. *)
Lemma remove_favourite_removes_no_id_witness :
  users (db (run (Sample.request DELETE "/users/bob22/m0" (Some "valid") [])
                 (Sample.fresh [] [Sample.bob])).2) = [Sample.bob].
Proof.
  apply (remove_favourite_removes_no_id Sample.hashPassword Sample.isEmail
           Sample.verifyToken
           (Sample.request DELETE "/users/bob22/m0" (Some "valid") [])
           (Sample.fresh [] [Sample.bob])
           (<["deleteFavorite" := "m0"]> {["ID" := "bob22"]})).
  - reflexivity.
  - intros d l x Hd Hl Hx. apply list_elem_of_singleton in Hd. subst d.
    vm_compute in Hl. injection Hl as <-.
    apply list_elem_of_singleton in Hx. subst x. discriminate.
Defined.

(** Witness of X9: two paths, one body. *)
Lemma profile_update_ignores_its_path_witness :
  run (Sample.request PUT "/users/alice1" (Some "valid") [("Password", "pw")])
      (Sample.fresh [] [Sample.alice; Sample.bob]) =
  run (Sample.request PUT "/users/7" (Some "valid") [("Password", "pw")])
      (Sample.fresh [] [Sample.alice; Sample.bob]).
Proof.
  exact (profile_update_ignores_its_path Sample.hashPassword Sample.isEmail
           Sample.verifyToken
           (Sample.request PUT "/users/alice1" (Some "valid") [("Password", "pw")])
           (Sample.request PUT "/users/7" (Some "valid") [("Password", "pw")])
           (Sample.fresh [] [Sample.alice; Sample.bob])
           {["ID" := "alice1"]} {["ID" := "7"]}
           eq_refl eq_refl eq_refl eq_refl eq_refl).
Defined.

(** Witness of X10: the update meant for [bob22] lands on [alice1]. *)
Lemma profile_update_rewrites_the_first_user_witness :
  (run (Sample.request PUT "/users/7" (Some "valid")
          [("Password", "pw"); ("Email", "new@example.com"); ("Birthday", "2000-01-01")])
       (Sample.fresh [] [Sample.alice; Sample.bob])).1 =
  json 200 (VObj (<["Birthday" := VStr "2000-01-01"]>
                    (<["Email" := VStr "new@example.com"]>
                       (<["Password" := VStr "pw"]> Sample.alice)))).
Proof.
  rewrite (profile_update_rewrites_the_first_user Sample.hashPassword Sample.isEmail
             Sample.verifyToken
             (Sample.request PUT "/users/7" (Some "valid")
                [("Password", "pw"); ("Email", "new@example.com");
                 ("Birthday", "2000-01-01")])
             (Sample.fresh [] [Sample.alice; Sample.bob])
             {["ID" := "7"]} Sample.alice [Sample.bob] "pw" "new@example.com" "2000-01-01"
             eq_refl eq_refl eq_refl eq_refl eq_refl eq_refl eq_refl eq_refl).
  reflexivity.
Defined.

(** Witness of X11: a profile update while the store is down. *)
Lemma store_errors_answer_500_witness :
  (run (Sample.request PUT "/users/7" (Some "valid") [("Password", "pw")])
       (Sample.broken [] [Sample.bob])).1 =
  send 500 "Error: MongoNetworkError".
Proof.
  rewrite (store_errors_answer_500 Sample.hashPassword Sample.isEmail Sample.verifyToken
             (Sample.request PUT "/users/7" (Some "valid") [("Password", "pw")])
             (Sample.broken [] [Sample.bob])
             (route PUT "/users/:ID" true PUTUpdateUser) {["ID" := "7"]}
             (FindOneAndUpdate Users {| f_key := "id"; f_val := None |}
                (USet [("Password", Some "pw"); ("Email", None); ("Birthday", None)]))
             "MongoNetworkError").
  - reflexivity.
  - reflexivity.
  - reflexivity.
  - do 3 apply list_elem_of_further. apply list_elem_of_here.
  - reflexivity.
Defined.

(** Witness of X12: a signup while the store is down. *)
Lemma signup_store_errors_answer_500_witness :
  run Sample.signup (Sample.broken [] []) =
  (send 500 "Error: MongoNetworkError",
   record (FindOne Users {| f_key := "Username"; f_val := Some "alice1" |})
     (Sample.broken [] [])).
Proof.
  refine (proj1 (signup_store_errors_answer_500 Sample.hashPassword Sample.isEmail
                   Sample.verifyToken Sample.signup (Sample.broken [] [])
                   "MongoNetworkError" _ eq_refl eq_refl _ eq_refl) eq_refl).
  vm_compute. reflexivity.
Defined.

(** Witness of X13: the signup of [alice1]. *)
Lemma signup_201_means_valid_and_free_witness :
  exists u, body Sample.signup !! "Username" = Some u /\ (5 <= String.length u)%nat.
Proof.
  destruct (signup_201_means_valid_and_free Sample.hashPassword Sample.isEmail
              Sample.verifyToken Sample.signup (Sample.fresh [] [])
              eq_refl eq_refl eq_refl)
    as (u & p & user & Hu & Hlen & _).
  exists u. split; assumption.
Defined.

(** Witness of X14: [alice1] signs up again. *)
Lemma usernames_stay_unique_witness :
  unique_usernames (run Sample.signup (Sample.fresh [] [Sample.alice])).2.
Proof.
  apply (usernames_stay_unique Sample.hashPassword Sample.isEmail Sample.verifyToken).
  unfold unique_usernames.
  change (usernames (users (db (Sample.fresh [] [Sample.alice])))) with ["alice1"].
  apply NoDup_singleton.
Defined.

(** Witness of X15: a profile update on a store the API filled. *)
Lemma api_shape_is_kept_witness :
  api_shaped (run (Sample.request PUT "/users/alice1" (Some "valid") [("Password", "pw")])
                  (Sample.fresh [] [Sample.alice])).2.
Proof.
  apply (api_shape_is_kept Sample.hashPassword Sample.isEmail Sample.verifyToken).
  intros d Hd. apply list_elem_of_singleton in Hd. subst d. split; reflexivity.
Defined.

(** Witness of X16: [alice1] cannot unregister. *)
Lemma api_users_cannot_be_targeted_witness :
  (run (Sample.request DELETE "/users/alice1/unregister" (Some "valid") [])
       (Sample.fresh [] [Sample.alice])).1 =
  send 400 "undefined was not found".
Proof.
  assert (api_shaped (Sample.fresh [] [Sample.alice])) as Hs.
  { intros d Hd. apply list_elem_of_singleton in Hd. subst d. split; reflexivity. }
  rewrite (proj1 (api_users_cannot_be_targeted Sample.hashPassword Sample.isEmail
                    Sample.verifyToken
                    (Sample.request DELETE "/users/alice1/unregister" (Some "valid") [])
                    (Sample.fresh [] [Sample.alice]) {["id" := "alice1"]} Hs eq_refl)
             eq_refl eq_refl).
  reflexivity.
Defined.

(** Witness of X17: the signup of [alice1], twice, the second time on
    a store that has come to answer searches only. *)
Lemma repeated_signup_is_refused_witness :
  status (run Sample.signup
            (with_fault Sample.searches_only
               (run Sample.signup (Sample.fresh [] [])).2)).1 = 400%nat.
Proof.
  destruct (repeated_signup_is_refused Sample.hashPassword Sample.isEmail
              Sample.verifyToken Sample.signup (Sample.fresh [] [])
              eq_refl eq_refl eq_refl) as (u & _ & Heq).
  rewrite (Heq Sample.searches_only eq_refl). reflexivity.
Defined.

(** Witness of X19: the word in capitals is still the account removal,
    and the escaped name reaches it decoded. *)
Lemma earlier_routes_win_witness :
  dispatch table (Sample.request DELETE "/users/a%20b/Unregister" (Some "valid") []) =
  Some (route DELETE "/users/:id/unregister" true DELETEUserAccount, {["id" := "a b"]}).
Proof.
  refine (proj1 (earlier_routes_win Sample.hashPassword Sample.isEmail Sample.verifyToken
                   (Sample.request DELETE "/users/a%20b/Unregister" (Some "valid") [])
                   "a%20b" "Unregister" _ _)
            "users" "a b" "Unregister" eq_refl eq_refl eq_refl eq_refl eq_refl);
    discriminate.
Defined.

(** Witness of X20: two tokens the guard accepts. *)
Lemma any_valid_token_serves_alike_witness :
  app Sample.hashPassword Sample.isEmail Sample.verifyAny
    (with_token (Some "k2") (Sample.request GET "/users" (Some "k1") []))
    (Sample.fresh [] [Sample.alice]) =
  app Sample.hashPassword Sample.isEmail Sample.verifyAny
    (Sample.request GET "/users" (Some "k1") [])
    (Sample.fresh [] [Sample.alice]).
Proof.
  exact (any_valid_token_serves_alike Sample.hashPassword Sample.isEmail Sample.verifyAny
           (Sample.request GET "/users" (Some "k1") [])
           (Sample.fresh [] [Sample.alice]) (Some "k2") eq_refl eq_refl).
Defined.

(** Witness of X21: [m1] twice for [bob22]. *)
Lemma adding_twice_stores_twice_witness :
  users (db (run (Sample.request POST "/users/bob22/m1" (Some "valid") [])
                 (run (Sample.request POST "/users/bob22/m1" (Some "valid") [])
                      (Sample.fresh [] [Sample.bob])).2).2) =
  [<["FavoriteMovies" := VArr [VStr "m0"; VStr "m1"; VStr "m1"]]> Sample.bob].
Proof.
  exact (adding_twice_stores_twice Sample.hashPassword Sample.isEmail Sample.verifyToken
           (Sample.request POST "/users/bob22/m1" (Some "valid") [])
           (Sample.fresh [] [Sample.bob])
           (<["movieID" := "m1"]> {["ID" := "bob22"]}) "bob22" "m1" 0%nat Sample.bob
           [VStr "m0"] eq_refl eq_refl eq_refl eq_refl eq_refl eq_refl eq_refl).
Defined.

(** Witness of X22: [alice1] signs up and is listed. *)
Lemma signup_then_list_witness :
  exists user,
    (run Sample.signup (Sample.fresh [] [])).1 = json 201 (VObj user) /\
    (run (Sample.request GET "/users" (Some "valid") [])
         (run Sample.signup (Sample.fresh [] [])).2).1 =
    json 201 (VArr [VObj user]).
Proof.
  exact (signup_then_list Sample.hashPassword Sample.isEmail Sample.verifyToken
           Sample.signup (Sample.request GET "/users" (Some "valid") [])
           (Sample.fresh [] []) eq_refl eq_refl eq_refl eq_refl eq_refl eq_refl eq_refl).
Defined.

(** Witness of X23: a body with an Email only. *)
Lemma missing_username_is_reported_twice_witness :
  status (run (Sample.request POST "/users" None [("Email", "a@example.com")])
              (Sample.fresh [] [])).1 = 422%nat.
Proof.
  destruct (missing_username_is_reported_twice Sample.hashPassword Sample.isEmail
              Sample.verifyToken
              (Sample.request POST "/users" None [("Email", "a@example.com")])
              (Sample.fresh [] []) eq_refl eq_refl eq_refl)
    as (others & _ & _ & _ & Hs & _).
  exact Hs.
Defined.

(** ** Escaped and undecodable paths, and characters of several bytes *)

(** A lookup on an escaped name searches the decoded name. *)
Example lookup_decodes_its_parameter :
  run (Sample.request GET "/movies/director/Christopher%20Nolan" (Some "valid") [])
      (Sample.fresh [Sample.inception] []) =
  (json 200 (VObj Sample.inception),
   {| db := Sample.store [Sample.inception] [];
      journal := [FindOne Movies {| f_key := "Director.Name";
                                    f_val := Some "Christopher Nolan" |}] |}).
Proof. vm_compute. reflexivity. Qed.

(** A favourite for the user whose [user_name] is ["a b"], named in the
    path as [a%20b]. *)
Example favourite_for_an_escaped_name :
  users (db (run (Sample.request POST "/users/a%20b/m1" (Some "valid") [])
                 (Sample.fresh [] [Sample.doc [("user_name", VStr "a b")]])).2) =
  [Sample.doc [("user_name", VStr "a b"); ("FavoriteMovies", VArr [VStr "m1"])]].
Proof. vm_compute. reflexivity. Qed.

(** A parameter that does not decode is answered by the error
    middleware, with or without a token, before the guard and without a
    call to the store. *)
Example undecodable_parameter_answers_500 :
  run (Sample.request GET "/movies/%E0%A4%A" None [])
      (Sample.fresh [Sample.inception] []) =
  (send 500 "Something broke!", Sample.fresh [Sample.inception] []) /\
  run (Sample.request GET "/movies/%E0%A4%A" (Some "valid") [])
      (Sample.fresh [Sample.inception] []) =
  (send 500 "Something broke!", Sample.fresh [Sample.inception] []).
Proof. split; vm_compute; reflexivity. Qed.

(** Four letters e-acute are eight bytes and four characters: such a
    Username is both too short and not alphanumeric. *)
Example short_username_in_two_byte_letters :
  validationResult Sample.isEmail signup_checks
    (Sample.request POST "/users" None
       [("Username", "éééé"); ("Password", "secret"); ("Email", "a@example.com")]) =
  [ {| e_value := Some "éééé"; e_msg := "Username is required";
       e_param := "Username"; e_location := "body" |};
    {| e_value := Some "éééé";
       e_msg := "Username contains non alphanumeric characters - not allowed.";
       e_param := "Username"; e_location := "body" |} ].
Proof. vm_compute. reflexivity. Qed.
